(** * Study guide generator: prompt construction and generation handler

    A shallow embedding of [app.py]: the construction of the instruction
    string sent to the chat-completion service, the handler of the
    "Generate" button with its guards and its [try]/[except] block, the
    word-count advisory and the two download buttons.

    Python strings are sequences of Unicode code points; they are modelled
    as lists of code points, so that [len], [strip] and [split] count and
    test characters the way the interpreter does. *)

From Stdlib Require Import String Ascii QArith.
From stdpp Require Import base option list gmap.

Local Open Scope N_scope.

(** ** Strings *)

Abbreviation str := (list N).

(** An ASCII literal of the source as a list of code points. *)
Definition lit (s : string) : str :=
  map N_of_ascii (list_ascii_of_string s).

(** Truthiness of a [str]: the empty string is falsy. *)
Definition truthy (s : str) : bool :=
  match s with [] => false | _ :: _ => true end.

(** Truthiness of a value that is [None] or a [str]. *)
Definition truthy_opt (o : option str) : bool :=
  match o with None => false | Some s => truthy s end.

Definition str_eqb (a b : str) : bool := bool_decide (a = b).

(** [sep.join(xs)] *)
Fixpoint join (sep : str) (xs : list str) : str :=
  match xs with
  | [] => []
  | [x] => x
  | x :: rest => x ++ sep ++ join sep rest
  end.

Definition nl : str := [10].

(** The text of a triple-quoted literal, given line by line. *)
Definition unlines (ls : list str) : str := join nl ls.

(** [needle in hay] for strings. *)
Fixpoint starts_with (p s : str) : bool :=
  match p, s with
  | [], _ => true
  | _ :: _, [] => false
  | a :: p', b :: s' => (a =? b) && starts_with p' s'
  end.

Fixpoint contains (needle hay : str) : bool :=
  starts_with needle hay ||
  match hay with
  | [] => false
  | _ :: t => contains needle t
  end.

(** [s.split("\n")]: the lines of a text, empty ones kept. *)
Fixpoint lines_aux (cur : str) (s : str) : list str :=
  match s with
  | [] => [rev cur]
  | c :: t => if c =? 10 then rev cur :: lines_aux [] t
              else lines_aux (c :: cur) t
  end.

Definition lines (s : str) : list str := lines_aux [] s.

(** ** Whitespace, [strip] and [split] *)

(** [str.isspace] on one code point, the table of CPython's
    [_PyUnicode_IsWhitespace]. *)
Definition isspace (c : N) : bool :=
  ((9 <=? c) && (c <=? 13)) || ((28 <=? c) && (c <=? 32)) ||
  (c =? 133) || (c =? 160) || (c =? 5760) ||
  ((8192 <=? c) && (c <=? 8202)) || (c =? 8232) || (c =? 8233) ||
  (c =? 8239) || (c =? 8287) || (c =? 12288).

Fixpoint lstrip (s : str) : str :=
  match s with
  | [] => []
  | c :: t => if isspace c then lstrip t else s
  end.

Definition rstrip (s : str) : str := rev (lstrip (rev s)).

(** [s.strip()] *)
Definition strip (s : str) : str := rstrip (lstrip s).

(** [s.split()]: the maximal runs of non-whitespace characters. [cur] is
    the run being read, last character first. *)
Fixpoint split_aux (cur : str) (s : str) : list str :=
  match s with
  | [] => match cur with [] => [] | _ => [rev cur] end
  | c :: t =>
      if isspace c then
        match cur with
        | [] => split_aux [] t
        | _ => rev cur :: split_aux [] t
        end
      else split_aux (c :: cur) t
  end.

Definition split (s : str) : list str := split_aux [] s.

(** ** [str(n)] and [capitalize] *)

Definition digit_char (d : N) : N := 48 + d.

Fixpoint digits_of (fuel : nat) (n : N) (acc : str) : str :=
  match fuel with
  | O => acc
  | S f =>
      let acc' := digit_char (n mod 10) :: acc in
      if n / 10 =? 0 then acc' else digits_of f (n / 10) acc'
  end.

(** A number has no more decimal digits than binary ones. *)
Definition str_of_N (n : N) : str := digits_of (S (N.to_nat (N.size n))) n [].

(** [str(z)] for a Python [int]. *)
Definition str_of_int (z : Z) : str :=
  match z with
  | Z0 => str_of_N 0
  | Zpos p => str_of_N (Npos p)
  | Zneg p => 45 :: str_of_N (Npos p)
  end.

Definition upper_char (c : N) : N :=
  if (97 <=? c) && (c <=? 122) then c - 32 else c.

Definition lower_char (c : N) : N :=
  if (65 <=? c) && (c <=? 90) then c + 32 else c.

(** [s.capitalize()], on the ASCII letters: the source applies it to the
    values of [detail_mapping] only, which are ASCII. *)
Definition capitalize (s : str) : str :=
  match s with
  | [] => []
  | c :: t => upper_char c :: map lower_char t
  end.

(** ** The options read from the sidebar widgets *)

Record Options := {
  model : str;
  guide_type : str;
  detail_level : str;
  num_questions : Z;
  include_mcq : bool;
  include_short : bool;
  include_essay : bool
}.

(** ** Prompt construction (the body of the [try] block) *)

Definition detail_mapping : gmap str str :=
  <[lit "Brief" := lit "concise and to-the-point"]>
  (<[lit "Moderate" := lit "balanced with good coverage"]>
  (<[lit "Detailed" := lit "comprehensive and thorough"]>
  (<[lit "Very Detailed" := lit "extremely detailed with in-depth explanations"]>
   ∅))).

Definition question_types (o : Options) : list str :=
  let qt := [] in
  let qt := if include_mcq o then qt ++ [lit "multiple choice questions"] else qt in
  let qt := if include_short o then qt ++ [lit "short answer questions"] else qt in
  let qt := if include_essay o then qt ++ [lit "essay questions"] else qt in
  qt.

Definition question_type_str (o : Options) : str :=
  match question_types o with
  | [] => lit "practice questions"
  | qt => join (lit ", ") qt
  end.

(** Exceptions that the [try] block of the handler can see. *)
Inductive Exn :=
| KeyError (key : str)
| IndexError
| NameError (name : str)
| RemoteError (msg : str).

Inductive result (A : Type) :=
| Ok (a : A)
| Raise (e : Exn).
Arguments Ok {A} a.
Arguments Raise {A} e.

#[export] Instance result_bind : MBind result :=
  fun A B (k : A -> result B) (r : result A) =>
    match r with
    | Ok a => k a
    | Raise e => Raise e
    end.

(** [detail_mapping[detail_level]] *)
Definition detail_phrase (o : Options) : result str :=
  match detail_mapping !! detail_level o with
  | Some d => Ok d
  | None => Raise (KeyError (detail_level o))
  end.

(** [{f"..." if flag else ""}] *)
Definition slot (flag : bool) (text : str) : str :=
  if flag then text else [].

Definition comprehensive_mcq : str :=
  lit "   - Multiple choice questions (with 4 options and correct answer)".
Definition comprehensive_short : str :=
  lit "   - Short answer questions".
Definition comprehensive_essay : str :=
  lit "   - Essay questions with key points to cover".

Definition comprehensive_questions_header (o : Options) : str :=
  lit "5. **PRACTICE QUESTIONS** - Create " ++ str_of_int (num_questions o)
  ++ lit " " ++ question_type_str o ++ lit ":".

Definition comprehensive_prompt (d study_material : str) (o : Options) : str :=
  unlines
    [ lit "Create a " ++ d ++ lit " study guide from the following material.";
      [];
      lit "STUDY MATERIAL:";
      study_material;
      [];
      lit "Generate a comprehensive study guide with these sections:";
      [];
      lit "1. **OVERVIEW** - Brief summary of the main topic and its importance";
      [];
      lit "2. **KEY CONCEPTS** - Main ideas explained clearly with examples where relevant";
      [];
      lit "3. **IMPORTANT DEFINITIONS** - Essential terms with clear, concise definitions";
      [];
      lit "4. **DETAILED NOTES** - " ++ capitalize d
        ++ lit " explanation of the content, organized by subtopics";
      [];
      comprehensive_questions_header o;
      slot (include_mcq o) comprehensive_mcq;
      slot (include_short o) comprehensive_short;
      slot (include_essay o) comprehensive_essay;
      [];
      lit "6. **STUDY TIPS** - Memory aids, mnemonics, and connections to help remember the material";
      [];
      lit "7. **SUMMARY** - Quick review of the most critical points";
      [];
      lit "Format everything in clear markdown with proper headers, bullet points, and emphasis where needed." ].

Definition summary_prompt (d study_material : str) : str :=
  unlines
    [ lit "Create a " ++ d ++ lit " summary of the following study material.";
      [];
      lit "STUDY MATERIAL:";
      study_material;
      [];
      lit "Provide:";
      lit "1. Main topic overview";
      lit "2. Key points and concepts (organized logically)";
      lit "3. Important takeaways";
      lit "4. Quick review summary";
      [];
      lit "Be " ++ d ++ lit " and use clear markdown formatting." ].

Definition definitions_prompt (d study_material : str) : str :=
  unlines
    [ lit "Extract and explain all important terms and concepts from the following material.";
      [];
      lit "STUDY MATERIAL:";
      study_material;
      [];
      lit "Create a comprehensive definitions guide with:";
      lit "1. **TERM**: Clear, " ++ d ++ lit " definition";
      lit "2. Context of how it's used";
      lit "3. Examples where helpful";
      lit "4. Related terms";
      [];
      lit "Organize alphabetically and use clear markdown formatting." ].

Definition questions_mcq : str :=
  lit "- Multiple choice questions with 4 options, correct answer, and brief explanation".
Definition questions_short : str :=
  lit "- Short answer questions with sample answers".
Definition questions_essay : str :=
  lit "- Essay questions with key points that should be covered".

Definition questions_opening (o : Options) : str :=
  lit "Create " ++ str_of_int (num_questions o)
  ++ lit " practice questions from the following study material.".

Definition questions_header (o : Options) : str :=
  lit "Generate " ++ question_type_str o ++ lit ":".

Definition questions_closing : str :=
  lit "Include a variety of difficulty levels and ensure questions cover all major concepts.".

Definition questions_prompt (study_material : str) (o : Options) : str :=
  unlines
    [ questions_opening o;
      [];
      lit "STUDY MATERIAL:";
      study_material;
      [];
      questions_header o;
      slot (include_mcq o) questions_mcq;
      slot (include_short o) questions_short;
      slot (include_essay o) questions_essay;
      [];
      questions_closing;
      lit "Format with clear markdown and proper numbering." ].

(** The [if]/[elif]/[else] chain on [guide_type]. The first three branches
    read [detail_mapping]; the last one does not. *)
Definition build_prompt (study_material : str) (o : Options) : result str :=
  if str_eqb (guide_type o) (lit "Comprehensive (All sections)") then
    d ← detail_phrase o; Ok (comprehensive_prompt d study_material o)
  else if str_eqb (guide_type o) (lit "Summary Only") then
    d ← detail_phrase o; Ok (summary_prompt d study_material)
  else if str_eqb (guide_type o) (lit "Definitions Focus") then
    d ← detail_phrase o; Ok (definitions_prompt d study_material)
  else
    Ok (questions_prompt study_material o).

(** ** Prompt construction, statement by statement *)

(** The two templates with a question section, over the values that the
    statements before them computed. *)
Definition comprehensive_text (d study_material : str) (n : Z)
    (question_type_str : str) (mcq short essay : bool) : str :=
  unlines
    [ lit "Create a " ++ d ++ lit " study guide from the following material.";
      [];
      lit "STUDY MATERIAL:";
      study_material;
      [];
      lit "Generate a comprehensive study guide with these sections:";
      [];
      lit "1. **OVERVIEW** - Brief summary of the main topic and its importance";
      [];
      lit "2. **KEY CONCEPTS** - Main ideas explained clearly with examples where relevant";
      [];
      lit "3. **IMPORTANT DEFINITIONS** - Essential terms with clear, concise definitions";
      [];
      lit "4. **DETAILED NOTES** - " ++ capitalize d
        ++ lit " explanation of the content, organized by subtopics";
      [];
      lit "5. **PRACTICE QUESTIONS** - Create " ++ str_of_int n
        ++ lit " " ++ question_type_str ++ lit ":";
      slot mcq comprehensive_mcq;
      slot short comprehensive_short;
      slot essay comprehensive_essay;
      [];
      lit "6. **STUDY TIPS** - Memory aids, mnemonics, and connections to help remember the material";
      [];
      lit "7. **SUMMARY** - Quick review of the most critical points";
      [];
      lit "Format everything in clear markdown with proper headers, bullet points, and emphasis where needed." ].

Definition questions_text (study_material : str) (n : Z)
    (question_type_str : str) (mcq short essay : bool) : str :=
  unlines
    [ lit "Create " ++ str_of_int n
        ++ lit " practice questions from the following study material.";
      [];
      lit "STUDY MATERIAL:";
      study_material;
      [];
      lit "Generate " ++ question_type_str ++ lit ":";
      slot mcq questions_mcq;
      slot short questions_short;
      slot essay questions_essay;
      [];
      questions_closing;
      lit "Format with clear markdown and proper numbering." ].

(** The variables that the statements of the block assign. A variable is
    unbound, or it holds a value: at the start of a run, whatever an
    earlier run left in it. *)
Record Locals := {
  l_detail_mapping : option (gmap str str);
  l_question_types : option (list str);
  l_question_type_str : option str;
  l_prompt : option str
}.

Definition unbound : Locals :=
  {| l_detail_mapping := None; l_question_types := None;
     l_question_type_str := None; l_prompt := None |}.

(** A statement reads and writes the variables and may raise. *)
Definition Block (A : Type) : Type := Locals -> result A * Locals.

#[export] Instance Block_ret : MRet Block := fun A a l => (Ok a, l).

#[export] Instance Block_bind : MBind Block :=
  fun A B (k : A -> Block B) (m : Block A) l =>
    match m l with
    | (Ok a, l') => k a l'
    | (Raise e, l') => (Raise e, l')
    end.

(** Reading a variable; reading an unbound one raises [NameError]. *)
Definition load {A} (name : string) (var : Locals -> option A) : Block A :=
  fun l =>
    match var l with
    | Some v => (Ok v, l)
    | None => (Raise (NameError (lit name)), l)
    end.

Definition assign_detail_mapping (v : gmap str str) : Block unit :=
  fun l => (Ok (), {| l_detail_mapping := Some v;
                      l_question_types := l_question_types l;
                      l_question_type_str := l_question_type_str l;
                      l_prompt := l_prompt l |}).

Definition assign_question_types (v : list str) : Block unit :=
  fun l => (Ok (), {| l_detail_mapping := l_detail_mapping l;
                      l_question_types := Some v;
                      l_question_type_str := l_question_type_str l;
                      l_prompt := l_prompt l |}).

Definition assign_question_type_str (v : str) : Block unit :=
  fun l => (Ok (), {| l_detail_mapping := l_detail_mapping l;
                      l_question_types := l_question_types l;
                      l_question_type_str := Some v;
                      l_prompt := l_prompt l |}).

Definition assign_prompt (v : str) : Block unit :=
  fun l => (Ok (), {| l_detail_mapping := l_detail_mapping l;
                      l_question_types := l_question_types l;
                      l_question_type_str := l_question_type_str l;
                      l_prompt := Some v |}).

(** [mapping[key]] *)
Definition subscript (mapping : gmap str str) (key : str) : Block str :=
  fun l =>
    match mapping !! key with
    | Some v => (Ok v, l)
    | None => (Raise (KeyError key), l)
    end.

(** [question_types.append(x)] *)
Definition append_question_type (x : str) : Block unit :=
  qt ← load "question_types" l_question_types;
  assign_question_types (qt ++ [x]).

(** [if flag: statement] *)
Definition when (flag : bool) (statement : Block unit) : Block unit :=
  if flag then statement else mret ().

(** Lines 191 to 277, one statement after the other; the value is what
    [prompt] holds at the end. *)
Definition prompt_block (study_material : str) (o : Options) : Block str :=
  assign_detail_mapping detail_mapping ;;
  assign_question_types [] ;;
  when (include_mcq o) (append_question_type (lit "multiple choice questions")) ;;
  when (include_short o) (append_question_type (lit "short answer questions")) ;;
  when (include_essay o) (append_question_type (lit "essay questions")) ;;
  qt ← load "question_types" l_question_types;
  assign_question_type_str
    (match qt with
     | [] => lit "practice questions"
     | _ => join (lit ", ") qt
     end) ;;
  (if str_eqb (guide_type o) (lit "Comprehensive (All sections)") then
     mapping ← load "detail_mapping" l_detail_mapping;
     d ← subscript mapping (detail_level o);
     phrase ← load "question_type_str" l_question_type_str;
     assign_prompt
       (comprehensive_text d study_material (num_questions o) phrase
          (include_mcq o) (include_short o) (include_essay o))
   else if str_eqb (guide_type o) (lit "Summary Only") then
     mapping ← load "detail_mapping" l_detail_mapping;
     d ← subscript mapping (detail_level o);
     assign_prompt (summary_prompt d study_material)
   else if str_eqb (guide_type o) (lit "Definitions Focus") then
     mapping ← load "detail_mapping" l_detail_mapping;
     d ← subscript mapping (detail_level o);
     assign_prompt (definitions_prompt d study_material)
   else
     phrase ← load "question_type_str" l_question_type_str;
     assign_prompt
       (questions_text study_material (num_questions o) phrase
          (include_mcq o) (include_short o) (include_essay o))) ;;
  load "prompt" l_prompt.

(** ** The session and the remote service *)

(** [st.session_state]: both entries start as [None]. *)
Record SessionState := {
  study_guide : option str;
  api_key : option str
}.

Definition initial_session : SessionState :=
  {| study_guide := None; api_key := None |}.

(** The arguments of [client.chat.completions.create], with the key the
    client was built from. *)
Record Request := {
  req_api_key : str;
  req_system : str;
  req_user : str;
  req_model : str;
  req_temperature : Q;
  req_max_tokens : Z
}.

(** What the call does: it raises, or it returns a completion. Each of
    its [choices] carries what [message.content] holds: a text, or [None]
    when the completion has no content. *)
Inductive Reply :=
| Raises (msg : str)
| Completion (choices : list (option str)).

Definition system_content : str :=
  lit "You are an expert educational content creator who creates comprehensive, well-organized study guides. You excel at identifying key concepts, creating effective practice questions, and organizing information for optimal learning.".

(** What the handler reports: the two [st.error] guards, the [except]
    branch, or [st.success]. *)
Inductive Outcome :=
| MissingCredential
| InsufficientInput
| GenerationError (e : Exn)
| Generated.

Record Run := {
  session_after : SessionState;
  outcome : Outcome;
  requests : list Request
}.

(** [chat_completion.choices[0].message.content] *)
Definition first_choice (choices : list (option str)) : result (option str) :=
  match choices with
  | [] => Raise IndexError
  | c :: _ => Ok c
  end.

(** The block under [if generate_button:]. *)
Definition generate (remote : Request -> Reply) (s : SessionState)
    (study_material : str) (o : Options) : Run :=
  if negb (truthy_opt (api_key s)) then
    {| session_after := s; outcome := MissingCredential; requests := [] |}
  else if negb (truthy study_material)
          || (length (strip study_material) <? 50)%nat then
    {| session_after := s; outcome := InsufficientInput; requests := [] |}
  else
    match build_prompt study_material o with
    | Raise e =>
        {| session_after := s; outcome := GenerationError e; requests := [] |}
    | Ok prompt =>
        let req :=
          {| req_api_key := default [] (api_key s);
             req_system := system_content;
             req_user := prompt;
             req_model := model o;
             req_temperature := 7 # 10;
             req_max_tokens := 8000 |} in
        match remote req with
        | Raises msg =>
            {| session_after := s; outcome := GenerationError (RemoteError msg);
               requests := [req] |}
        | Completion choices =>
            match first_choice choices with
            | Raise e =>
                {| session_after := s; outcome := GenerationError e;
                   requests := [req] |}
            | Ok content =>
                {| session_after :=
                     {| study_guide := content; api_key := api_key s |};
                   outcome := Generated;
                   requests := [req] |}
            end
        end
    end.

(** The request that the handler sends for a prompt. *)
Definition request_of (s : SessionState) (o : Options) (prompt : str) : Request :=
  {| req_api_key := default [] (api_key s);
     req_system := system_content;
     req_user := prompt;
     req_model := model o;
     req_temperature := 7 # 10;
     req_max_tokens := 8000 |}.

(** ** Word-count advisory (right column) *)

(** The three messages under the word-count metric: [st.warning],
    [st.info] and [st.success]. *)
Inductive Sufficiency := TooShort | Short | Sufficient.

(** [len(study_material.split())] *)
Definition word_count (study_material : str) : nat :=
  length (split study_material).

Definition classify (wc : nat) : Sufficiency :=
  if (wc <? 100)%nat then TooShort
  else if (wc <? 200)%nat then Short
  else Sufficient.

(** The block under [if study_material:]; nothing is shown for the empty
    string. *)
Definition advisory (study_material : str) : option (nat * Sufficiency) :=
  if truthy study_material then
    Some (word_count study_material, classify (word_count study_material))
  else None.

(** ** Download buttons *)

(** A reading of [datetime.now()]. *)
Record DateTime := {
  year : N; month : N; day : N;
  hour : N; minute : N; second : N
}.

Definition valid_datetime (t : DateTime) : bool :=
  (1000 <=? year t) && (year t <=? 9999) &&
  (1 <=? month t) && (month t <=? 12) &&
  (1 <=? day t) && (day t <=? 31) &&
  (hour t <? 24) && (minute t <? 60) && (second t <? 60).

(** A decimal field padded with zeros to [width] characters. *)
Definition zero_pad (width : nat) (n : N) : str :=
  let s := str_of_N n in
  replicate (width - length s) 48 ++ s.

(** [t.strftime('%Y%m%d_%H%M%S')] *)
Definition strftime (t : DateTime) : str :=
  zero_pad 4 (year t) ++ zero_pad 2 (month t) ++ zero_pad 2 (day t)
  ++ lit "_"
  ++ zero_pad 2 (hour t) ++ zero_pad 2 (minute t) ++ zero_pad 2 (second t).

Record Download := {
  data : str;
  file_name : str;
  mime : str
}.

(** The block under [if st.session_state.study_guide:]. Each button reads
    the clock when it is rendered: [now k] is the [k]-th reading of the
    clock in the current run of the script. *)
Definition download_buttons (now : nat -> DateTime) (s : SessionState)
    : option (Download * Download) :=
  match study_guide s with
  | None => None
  | Some guide =>
      if truthy guide then
        Some ({| data := guide;
                 file_name := lit "study_guide_" ++ strftime (now 0%nat) ++ lit ".md";
                 mime := lit "text/markdown" |},
              {| data := guide;
                 file_name := lit "study_guide_" ++ strftime (now 1%nat) ++ lit ".txt";
                 mime := lit "text/plain" |})
      else None
  end.

(** ** One run of the script *)

(** What the widgets hold when the script runs. [study_material] is the
    text of the text area, or the decoded upload when there is one. *)
Record Widgets := {
  api_key_input : str;
  options : Options;
  study_material : str;
  generate_button : bool
}.

Record Page := {
  page_session : SessionState;
  page_advisory : option (nat * Sufficiency);
  page_outcome : option Outcome;
  page_requests : list Request;
  page_downloads : option (Download * Download)
}.

(** [if api_key: st.session_state.api_key = api_key] *)
Definition sidebar (s : SessionState) (w : Widgets) : SessionState :=
  if truthy (api_key_input w) then
    {| study_guide := study_guide s; api_key := Some (api_key_input w) |}
  else s.

Definition script (remote : Request -> Reply) (now : nat -> DateTime)
    (s : SessionState) (w : Widgets) : Page :=
  let s1 := sidebar s w in
  if generate_button w then
    let r := generate remote s1 (study_material w) (options w) in
    {| page_session := session_after r;
       page_advisory := advisory (study_material w);
       page_outcome := Some (outcome r);
       page_requests := requests r;
       page_downloads := download_buttons now (session_after r) |}
  else
    {| page_session := s1;
       page_advisory := advisory (study_material w);
       page_outcome := None;
       page_requests := [];
       page_downloads := download_buttons now s1 |}.

(** ** The specification's vocabulary *)

Inductive Family := Comprehensive | SummaryOnly | DefinitionsFocus | QuestionsFocus.

Inductive QuestionType := MCQ | ShortAnswer | Essay.

#[export] Instance Family_eq_dec : EqDecision Family.
Proof. solve_decision. Defined.

(** The family that a value of [guide_type] selects. *)
Definition family_of (guide_type : str) : Family :=
  if str_eqb guide_type (lit "Comprehensive (All sections)") then Comprehensive
  else if str_eqb guide_type (lit "Summary Only") then SummaryOnly
  else if str_eqb guide_type (lit "Definitions Focus") then DefinitionsFocus
  else QuestionsFocus.

(** Section headers and fixed lines that tell the families apart. *)
Definition section_headers (f : Family) : list str :=
  match f with
  | Comprehensive =>
      [ lit "Generate a comprehensive study guide with these sections:";
        lit "**OVERVIEW**"; lit "**KEY CONCEPTS**";
        lit "**IMPORTANT DEFINITIONS**"; lit "**DETAILED NOTES**";
        lit "**PRACTICE QUESTIONS**"; lit "**STUDY TIPS**"; lit "**SUMMARY**" ]
  | SummaryOnly =>
      [ lit "Provide:"; lit "Main topic overview";
        lit "Key points and concepts (organized logically)";
        lit "Important takeaways"; lit "Quick review summary" ]
  | DefinitionsFocus =>
      [ lit "Create a comprehensive definitions guide with:";
        lit "**TERM**"; lit "Context of how it's used";
        lit "Examples where helpful"; lit "Related terms";
        lit "Organize alphabetically" ]
  | QuestionsFocus =>
      [ lit "practice questions from the following study material.";
        questions_closing;
        lit "Format with clear markdown and proper numbering." ]
  end.

Definition flag (t : QuestionType) (o : Options) : bool :=
  match t with
  | MCQ => include_mcq o
  | ShortAnswer => include_short o
  | Essay => include_essay o
  end.

Definition label (t : QuestionType) : str :=
  match t with
  | MCQ => lit "multiple choice questions"
  | ShortAnswer => lit "short answer questions"
  | Essay => lit "essay questions"
  end.

(** The bullet line of a question type in the two templates that have a
    question section. *)
Definition bullet (f : Family) (t : QuestionType) : str :=
  match f, t with
  | Comprehensive, MCQ => comprehensive_mcq
  | Comprehensive, ShortAnswer => comprehensive_short
  | Comprehensive, Essay => comprehensive_essay
  | _, MCQ => questions_mcq
  | _, ShortAnswer => questions_short
  | _, Essay => questions_essay
  end.

Definition block_header (f : Family) (o : Options) : str :=
  match f with
  | Comprehensive => comprehensive_questions_header o
  | _ => questions_header o
  end.

Definition block_closing (f : Family) : str :=
  match f with
  | Comprehensive =>
      lit "6. **STUDY TIPS** - Memory aids, mnemonics, and connections to help remember the material"
  | _ => questions_closing
  end.

Definition has_question_section (f : Family) : bool :=
  match f with
  | Comprehensive | QuestionsFocus => true
  | _ => false
  end.

(** The enabled labels, in the fixed order. *)
Definition enabled (o : Options) : list QuestionType :=
  filter (fun t => flag t o = true) [MCQ; ShortAnswer; Essay].

(** The phrase as the specification words it. *)
Definition question_type_phrase_spec (o : Options) : str :=
  if negb (include_mcq o) && negb (include_short o) && negb (include_essay o)
  then lit "practice questions"
  else join (lit ", ") (map label (enabled o)).

(** The lines that follow the first line equal to [header], up to the
    first line equal to [closing]. *)
Fixpoint after_line (header : str) (ls : list str) : list str :=
  match ls with
  | [] => []
  | l :: rest => if str_eqb l header then rest else after_line header rest
  end.

Fixpoint until_line (closing : str) (ls : list str) : list str :=
  match ls with
  | [] => []
  | l :: rest => if str_eqb l closing then [] else l :: until_line closing rest
  end.

Definition question_block (f : Family) (o : Options) (prompt : str) : list str :=
  until_line (block_closing f) (after_line (block_header f o) (lines prompt)).

(** The number of maximal runs of non-whitespace characters: a run starts
    at a non-whitespace character that is first or follows whitespace. *)
Fixpoint token_starts (after_space : bool) (s : str) : nat :=
  match s with
  | [] => 0
  | c :: t =>
      (if after_space && negb (isspace c) then 1 else 0)
      + token_starts (isspace c) t
  end.

Definition whitespace_delimited_tokens (s : str) : nat := token_starts true s.

Definition is_digit (c : N) : bool := (48 <=? c) && (c <=? 57).

(** [width] decimal digits. *)
Definition digits (width : nat) (s : str) : Prop :=
  length s = width /\ forallb is_digit s = true.

Definition sample_options : Options :=
  {| model := lit "llama-3.3-70b-versatile";
     guide_type := lit "Practice Questions Focus";
     detail_level := lit "Detailed";
     num_questions := 5;
     include_mcq := false;
     include_short := false;
     include_essay := true |}.

Definition sample_material : str :=
  lit "Photosynthesis turns light, water and carbon dioxide into sugar.".

(** The characters of a rendered integer: digits and the minus sign. *)
Definition int_char (c : N) : bool := is_digit c || (c =? 45).

(** The number that a string of decimal digits denotes. *)
Definition N_of_digits (s : str) : N :=
  fold_left (fun a c => 10 * a + (c - 48)) s 0.

Definition detail_phrases : list str :=
  [ lit "concise and to-the-point";
    lit "balanced with good coverage";
    lit "comprehensive and thorough";
    lit "extremely detailed with in-depth explanations" ].

(** The eight values of the phrase, written out. *)
Definition phrase_table (mcq short essay : bool) : str :=
  match mcq, short, essay with
  | true, true, true =>
      lit "multiple choice questions, short answer questions, essay questions"
  | true, true, false => lit "multiple choice questions, short answer questions"
  | true, false, true => lit "multiple choice questions, essay questions"
  | true, false, false => lit "multiple choice questions"
  | false, true, true => lit "short answer questions, essay questions"
  | false, true, false => lit "short answer questions"
  | false, false, true => lit "essay questions"
  | false, false, false => lit "practice questions"
  end.

(** The input gate as the specification words it: the rejection depends on
    the trimmed length alone. *)
Definition insufficient_input_as_specified : Prop :=
  forall remote s study_material o,
    outcome (generate remote s study_material o) = InsufficientInput
    <-> (length (strip study_material) < 50)%nat.

(** The result store as the specification words it: after an attempt the
    slot holds what it held before (the attempt failed), or the text of
    the first completion (the attempt succeeded). *)
Definition result_store_as_specified : Prop :=
  forall remote s study_material o,
    study_guide (session_after (generate remote s study_material o))
    = study_guide s
    \/ exists req text rest,
         req ∈ requests (generate remote s study_material o)
         /\ remote req = Completion (Some text :: rest)
         /\ study_guide (session_after (generate remote s study_material o))
            = Some text.

(** ** Sample values *)

Definition failing_remote : Request -> Reply :=
  fun _ => Raises (lit "Connection error.").

Definition answering_remote : Request -> Reply :=
  fun _ => Completion [Some (lit "# Photosynthesis"); Some (lit "# Second choice")].

(** A service whose completion has one choice, without content. *)
Definition silent_remote : Request -> Reply :=
  fun _ => Completion [None].

Definition keyed_session : SessionState :=
  {| study_guide := None; api_key := Some (lit "gsk_live") |}.

Definition revisiting_session : SessionState :=
  {| study_guide := Some (lit "# Earlier guide"); api_key := Some (lit "gsk_other") |}.

Definition flashcards_options : Options :=
  {| model := lit "mixtral-8x7b-32768";
     guide_type := lit "Flashcards";
     detail_level := lit "Exhaustive";
     num_questions := 3;
     include_mcq := true;
     include_short := false;
     include_essay := false |}.

(** The thresholds of the advisory as the specification words them. *)
Definition sufficiency_spec (wc : nat) (c : Sufficiency) : Prop :=
  ((wc < 100)%nat -> c = TooShort)
  /\ ((100 <= wc <= 199)%nat -> c = Short)
  /\ ((200 <= wc)%nat -> c = Sufficient).

(** The advisory as the specification words it: every material has a word
    count and a class. *)
Definition advisory_as_specified : Prop :=
  forall study_material, exists c,
    advisory study_material
    = Some (whitespace_delimited_tokens study_material, c)
    /\ sufficiency_spec (whitespace_delimited_tokens study_material) c.

(** A token of [split]: not empty, no whitespace in it. *)
Definition token (w : str) : Prop :=
  truthy w = true /\ forallb (fun c => negb (isspace c)) w = true.

(** [width] digits that denote [n]. *)
Definition field (width : nat) (n : N) (s : str) : Prop :=
  digits width s /\ N_of_digits s = n.

(** The pattern [YYYYMMDD_HHMMSS] for the reading [t] of the clock. *)
Definition stamp_of (t : DateTime) (stamp : str) : Prop :=
  exists Y M D h m s,
    stamp = Y ++ M ++ D ++ lit "_" ++ h ++ m ++ s
    /\ field 4 (year t) Y /\ field 2 (month t) M /\ field 2 (day t) D
    /\ field 2 (hour t) h /\ field 2 (minute t) m /\ field 2 (second t) s.

(** Both file names carry the stamp of the reading [t]. *)
Definition stamped (t : DateTime) (d : Download * Download) : Prop :=
  file_name d.1 = lit "study_guide_" ++ strftime t ++ lit ".md"
  /\ file_name d.2 = lit "study_guide_" ++ strftime t ++ lit ".txt".

(** The exporter as the specification words it: a guide generated in a run
    whose clock reads [t_gen] is offered, in every later run, as two equal
    payloads whose names carry the stamp of [t_gen]. *)
Definition export_as_specified : Prop :=
  forall remote now (t_gen : DateTime) s w w',
    generate_button w = true ->
    generate_button w' = false ->
    page_outcome (script remote (fun _ => t_gen) s w) = Some Generated ->
    exists d,
      page_downloads
        (script remote now (page_session (script remote (fun _ => t_gen) s w)) w')
      = Some d
      /\ data d.1 = data d.2 /\ stamped t_gen d.

Definition new_year_eve : DateTime :=
  {| year := 2025; month := 12; day := 31;
     hour := 23; minute := 59; second := 59 |}.

(** A clock that reads one second more at each reading, from midnight. *)
Definition new_year_clock (k : nat) : DateTime :=
  {| year := 2026; month := 1; day := 1;
     hour := 0; minute := 0; second := N.of_nat k |}.

Definition clicking : Widgets :=
  {| api_key_input := lit "gsk_live";
     options := sample_options;
     study_material := sample_material;
     generate_button := true |}.

Definition idle : Widgets :=
  {| api_key_input := [];
     options := sample_options;
     study_material := sample_material;
     generate_button := false |}.

Definition sample_request (key : str) : Request :=
  {| req_api_key := key;
     req_system := system_content;
     req_user := questions_prompt sample_material sample_options;
     req_model := model sample_options;
     req_temperature := 7 # 10;
     req_max_tokens := 8000 |}.

(** ** Text of the templates around the material and the number *)

(** A character that [str_of_int] never produces. *)
Definition plain (c : N) : bool := negb (int_char c).





Definition comprehensive_header_left : str :=
  lit "5. **PRACTICE QUESTIONS** - Create ".

Definition comprehensive_header_right (o : Options) : str :=
  lit " " ++ question_type_str o ++ lit ":".

Definition questions_opening_left : str := lit "Create ".

Definition questions_opening_right : str :=
  lit " practice questions from the following study material.".

(** The lines of each template without the material; a line that holds the
    number of questions gives the text on its two sides. *)
Definition comprehensive_frame (d : str) (o : Options) : list str :=
  [ lit "Create a " ++ d ++ lit " study guide from the following material.";
    [];
    lit "STUDY MATERIAL:";
    [];
    lit "Generate a comprehensive study guide with these sections:";
    [];
    lit "1. **OVERVIEW** - Brief summary of the main topic and its importance";
    [];
    lit "2. **KEY CONCEPTS** - Main ideas explained clearly with examples where relevant";
    [];
    lit "3. **IMPORTANT DEFINITIONS** - Essential terms with clear, concise definitions";
    [];
    lit "4. **DETAILED NOTES** - " ++ capitalize d
      ++ lit " explanation of the content, organized by subtopics";
    [];
    comprehensive_header_left;
    comprehensive_header_right o;
    slot (include_mcq o) comprehensive_mcq;
    slot (include_short o) comprehensive_short;
    slot (include_essay o) comprehensive_essay;
    [];
    lit "6. **STUDY TIPS** - Memory aids, mnemonics, and connections to help remember the material";
    [];
    lit "7. **SUMMARY** - Quick review of the most critical points";
    [];
    lit "Format everything in clear markdown with proper headers, bullet points, and emphasis where needed." ].

Definition summary_frame (d : str) : list str :=
  [ lit "Create a " ++ d ++ lit " summary of the following study material.";
    [];
    lit "STUDY MATERIAL:";
    [];
    lit "Provide:";
    lit "1. Main topic overview";
    lit "2. Key points and concepts (organized logically)";
    lit "3. Important takeaways";
    lit "4. Quick review summary";
    [];
    lit "Be " ++ d ++ lit " and use clear markdown formatting." ].

Definition definitions_frame (d : str) : list str :=
  [ lit "Extract and explain all important terms and concepts from the following material.";
    [];
    lit "STUDY MATERIAL:";
    [];
    lit "Create a comprehensive definitions guide with:";
    lit "1. **TERM**: Clear, " ++ d ++ lit " definition";
    lit "2. Context of how it's used";
    lit "3. Examples where helpful";
    lit "4. Related terms";
    [];
    lit "Organize alphabetically and use clear markdown formatting." ].

Definition questions_frame (o : Options) : list str :=
  [ questions_opening_left;
    questions_opening_right;
    [];
    lit "STUDY MATERIAL:";
    [];
    questions_header o;
    slot (include_mcq o) questions_mcq;
    slot (include_short o) questions_short;
    slot (include_essay o) questions_essay;
    [];
    questions_closing;
    lit "Format with clear markdown and proper numbering." ].

Definition frame (f : Family) (d : str) (o : Options) : list str :=
  match f with
  | Comprehensive => comprehensive_frame d o
  | SummaryOnly => summary_frame d
  | DefinitionsFocus => definitions_frame d
  | QuestionsFocus => questions_frame o
  end.

(** The prompt of a family. *)
Definition template (f : Family) (d study_material : str) (o : Options) : str :=
  match f with
  | Comprehensive => comprehensive_prompt d study_material o
  | SummaryOnly => summary_prompt d study_material
  | DefinitionsFocus => definitions_prompt d study_material
  | QuestionsFocus => questions_prompt study_material o
  end.

(** The needle occurs in a line around a number only if it occurs on one
    side of the number. *)
Definition splits_at_int (needle a b : str) : Prop :=
  forall z,
    contains needle (a ++ str_of_int z ++ b)
    = contains needle a || contains needle b.


(** Template exclusivity as the specification words it: no header of
    another family occurs in the prompt. *)
Definition headers_as_specified : Prop :=
  forall study_material o prompt f h,
    build_prompt study_material o = Ok prompt ->
    f <> family_of (guide_type o) ->
    h ∈ section_headers f ->
    contains h prompt = false.

Definition glossary_material : str :=
  lit "A glossary entry has the form **TERM**: definition, one entry per line.".

Definition summary_options : Options :=
  {| model := lit "llama-3.3-70b-versatile";
     guide_type := lit "Summary Only";
     detail_level := lit "Brief";
     num_questions := 10;
     include_mcq := true;
     include_short := true;
     include_essay := false |}.

Definition comprehensive_options : Options :=
  {| model := lit "llama-3.3-70b-versatile";
     guide_type := lit "Comprehensive (All sections)";
     detail_level := lit "Very Detailed";
     num_questions := 10;
     include_mcq := false;
     include_short := true;
     include_essay := true |}.

(** ** Further parts of the script *)

(** The preview of an uploaded file:
    [study_material[:500] + "..." if len(study_material) > 500 else study_material] *)
Definition preview (study_material : str) : str :=
  if (500 <? length study_material)%nat
  then take 500 study_material ++ lit "..."
  else study_material.

(** Digits, last one first, with a comma after every third one that has
    more digits behind it. *)
Fixpoint group3 (rev_digits : str) : str :=
  match rev_digits with
  | a :: b :: c :: ((_ :: _) as more) => a :: b :: c :: 44 :: group3 more
  | _ => rev_digits
  end.

(** [f"{n:,}"] for a count. *)
Definition thousands (n : N) : str := rev (group3 (rev (str_of_N n))).

(** The value of the "Word Count" metric. *)
Definition metric (study_material : str) : str :=
  thousands (N.of_nat (word_count study_material)).

(** [int(s)] on what [str_of_int] writes. *)
Definition int_of_str (s : str) : Z :=
  match s with
  | [] => 0
  | c :: t =>
      if c =? 45 then (- Z.of_N (N_of_digits t))%Z else Z.of_N (N_of_digits s)
  end.

(** The labels of the detail slider. *)
Definition detail_levels : list str :=
  [ lit "Brief"; lit "Moderate"; lit "Detailed"; lit "Very Detailed" ].

(** The number of lines of a template without those of the material. *)
Definition frame_lines (f : Family) : nat :=
  match f with
  | Comprehensive => 24
  | _ => 11
  end.

(** One run of the script with what surrounds it: the state of the
    widgets, the remote service and the clock. *)
Record Rerun := {
  rerun_widgets : Widgets;
  rerun_remote : Request -> Reply;
  rerun_now : nat -> DateTime
}.

Definition rerun (s : SessionState) (r : Rerun) : Page :=
  script (rerun_remote r) (rerun_now r) s (rerun_widgets r).

(** The session after a sequence of runs: [st.session_state] is what one
    run hands to the next. *)
Definition session_after_runs (rs : list Rerun) (s : SessionState) : SessionState :=
  fold_left (fun s r => page_session (rerun s r)) rs s.

(** What each run of a sequence reports, in order. *)
Fixpoint outcomes_of_runs (rs : list Rerun) (s : SessionState)
    : list (option Outcome) :=
  match rs with
  | [] => []
  | r :: rest =>
      page_outcome (rerun s r) :: outcomes_of_runs rest (page_session (rerun s r))
  end.

(** Options that differ in nothing but the number of questions. *)
Definition with_num_questions (n : Z) (o : Options) : Options :=
  {| model := model o;
     guide_type := guide_type o;
     detail_level := detail_level o;
     num_questions := n;
     include_mcq := include_mcq o;
     include_short := include_short o;
     include_essay := include_essay o |}.

Definition invalid_detail_options : Options :=
  {| model := lit "llama-3.3-70b-versatile";
     guide_type := lit "Summary Only";
     detail_level := lit "Exhaustive";
     num_questions := 10;
     include_mcq := true;
     include_short := true;
     include_essay := false |}.

Definition nonspace (c : N) : bool := negb (isspace c).

(** A text without its whitespace characters. *)
Definition without_whitespace (s : str) : str := List.filter nonspace s.

(** A text without its commas. *)
Definition without_commas (s : str) : str :=
  List.filter (fun c => negb (c =? 44)) s.

(** * Properties *)

(** ** Substrings *)

Section Substring.

Implicit Types needle hay a b : str.

Lemma starts_with_spec p s :
  starts_with p s = true <-> exists b, s = p ++ b.
Proof.
  revert s; induction p as [|x p IH]; intros s; simpl.
  - split; eauto.
  - destruct s as [|c s].
    + split; [discriminate | intros [b Hb]; discriminate].
    + rewrite andb_true_iff, N.eqb_eq, IH. split.
      * intros [-> [b ->]]; eauto.
      * intros [b Hb]. injection Hb as -> ->. eauto.
Qed.

Lemma contains_spec needle hay :
  contains needle hay = true <-> exists a b, hay = a ++ needle ++ b.
Proof.
  induction hay as [|c hay IH]; cbn [contains].
  - rewrite orb_false_r, starts_with_spec. split.
    + intros [b Hb]. by exists [], b.
    + intros (a & b & Hab). destruct a; simpl in Hab; [eauto | discriminate].
  - rewrite orb_true_iff, starts_with_spec, IH. split.
    + intros [[b Hb] | (a & b & ->)]; [by exists [], b | by exists (c :: a), b].
    + intros (a & b & Hab). destruct a as [|x a]; simpl in Hab.
      * left; eauto.
      * injection Hab as -> ->. right; eauto.
Qed.

Lemma contains_refl needle : contains needle needle = true.
Proof. apply contains_spec. exists [], []. by rewrite app_nil_r. Qed.



Lemma contains_nil_r needle :
  truthy needle = true -> contains needle [] = false.
Proof. by destruct needle. Qed.

Lemma starts_with_sep c needle a b :
  c ∉ needle ->
  starts_with needle (a ++ c :: b) = starts_with needle a.
Proof.
  revert a; induction needle as [|x needle IH]; intros a Hc; [by destruct a|].
  apply not_elem_of_cons in Hc as [Hx Hc]. destruct a as [|y a]; simpl.
  - destruct (N.eqb_spec x c); [congruence | done].
  - by rewrite IH.
Qed.

(** A needle without the character [c] lies on one side of a [c]. *)
Lemma contains_sep c needle a b :
  c ∉ needle ->
  contains needle (a ++ c :: b) = contains needle a || contains needle b.
Proof.
  intros Hc. induction a as [|y a IH].
  - pose proof (starts_with_sep c needle [] b Hc) as H. cbn [app] in H.
    cbn [app contains]. by rewrite H, orb_false_r.
  - change ((y :: a) ++ c :: b) with (y :: (a ++ c :: b)). cbn [contains].
    pose proof (starts_with_sep c needle (y :: a) b Hc) as H.
    change ((y :: a) ++ c :: b) with (y :: (a ++ c :: b)) in H.
    by rewrite IH, H, orb_assoc.
Qed.

Lemma contains_sep_run run needle a b :
  truthy needle = true -> truthy run = true ->
  Forall (fun c => c ∉ needle) run ->
  contains needle (a ++ run ++ b) = contains needle a || contains needle b.
Proof.
  intros Hn Hr Hrun. revert a. induction Hrun as [|c run Hc Hrun IH]; [done|].
  intros a. destruct run as [|c' run].
  - by apply contains_sep.
  - change ((c :: c' :: run) ++ b) with (c :: ([] ++ (c' :: run) ++ b)).
    rewrite contains_sep, IH by done.
    by rewrite contains_nil_r.
Qed.

Lemma contains_unlines needle (ls : list str) :
  truthy needle = true -> 10 ∉ needle ->
  contains needle (unlines ls) = existsb (contains needle) ls.
Proof.
  intros Hn Hnl. induction ls as [|x [|y ls] IH].
  - by apply contains_nil_r.
  - cbn. by rewrite orb_false_r.
  - change (unlines (x :: y :: ls)) with (x ++ 10 :: unlines (y :: ls)).
    rewrite contains_sep by done. by rewrite IH.
Qed.

Lemma lines_aux_sep cur a b :
  lines_aux cur (a ++ 10 :: b) = lines_aux cur a ++ lines b.
Proof.
  revert cur; induction a as [|c a IH]; intros cur; simpl; [done|].
  destruct (c =? 10); [by rewrite IH | apply IH].
Qed.

Lemma lines_aux_single cur a :
  10 ∉ a -> lines_aux cur a = [rev cur ++ a].
Proof.
  revert cur; induction a as [|c a IH]; intros cur Ha; simpl.
  - by rewrite app_nil_r.
  - apply not_elem_of_cons in Ha as [Hc Ha].
    assert ((c =? 10) = false) as -> by (apply N.eqb_neq; congruence).
    rewrite IH by done. simpl. by rewrite <- app_assoc.
Qed.

Lemma lines_single a : 10 ∉ a -> lines a = [a].
Proof. apply lines_aux_single. Qed.

Lemma lines_unlines_cons x y (ls : list str) :
  lines (unlines (x :: y :: ls)) = lines x ++ lines (unlines (y :: ls)).
Proof. apply lines_aux_sep. Qed.

End Substring.

(** ** Decimal rendering *)

Section Decimal.

Lemma digit_char_is_digit n : is_digit (digit_char (n mod 10)) = true.
Proof.
  assert (n mod 10 < 10) by (by apply N.mod_upper_bound). unfold is_digit, digit_char.
  generalize dependent (n mod 10). intros r Hr.
  apply andb_true_iff; split; apply N.leb_le; lia.
Qed.

Lemma digits_of_chars fuel n acc :
  forallb is_digit acc = true ->
  forallb is_digit (digits_of fuel n acc) = true.
Proof.
  revert n acc; induction fuel as [|fuel IH]; intros n acc Hacc; simpl; [done|].
  assert (forallb is_digit (digit_char (n mod 10) :: acc) = true) as H.
  { simpl. by rewrite digit_char_is_digit. }
  destruct (n / 10 =? 0); [done | by apply IH].
Qed.

Lemma digits_of_truthy fuel n acc :
  truthy acc = true -> truthy (digits_of fuel n acc) = true.
Proof.
  revert n acc; induction fuel as [|fuel IH]; intros n acc Hacc; simpl; [done|].
  destruct (n / 10 =? 0); [done | by apply IH].
Qed.

Lemma str_of_N_digits n : forallb is_digit (str_of_N n) = true.
Proof. by apply digits_of_chars. Qed.

Lemma str_of_N_truthy n : truthy (str_of_N n) = true.
Proof.
  unfold str_of_N. simpl. destruct (n / 10 =? 0); [done|].
  by apply digits_of_truthy.
Qed.

(** The fuel is enough: reading the digits back gives the number. *)
Lemma digits_of_value fuel n acc :
  n < 2 ^ N.of_nat fuel ->
  N_of_digits (digits_of fuel n acc)
  = fold_left (fun a c => 10 * a + (c - 48)) acc n.
Proof.
  unfold N_of_digits.
  revert n acc; induction fuel as [|fuel IH]; intros n acc Hn.
  - simpl in *. by replace n with 0 by lia.
  - cbn [digits_of]. assert (n mod 10 < 10) as Hr by (by apply N.mod_upper_bound).
    pose proof (N.Div0.div_mod n 10) as Hdiv.
    rewrite Nat2N.inj_succ, N.pow_succ_r' in Hn.
    specialize (IH (n / 10) (digit_char (n mod 10) :: acc)).
    unfold digit_char in *.
    set (q := n / 10) in *. set (r := n mod 10) in *. clearbody q r.
    destruct (N.eqb_spec q 0) as [Hz|Hz].
    + cbn [fold_left]. f_equal. lia.
    + rewrite IH by lia. cbn [fold_left]. f_equal. lia.
Qed.

Lemma str_of_N_value n : N_of_digits (str_of_N n) = n.
Proof.
  unfold str_of_N. rewrite digits_of_value; [done|].
  rewrite Nat2N.inj_succ, N2Nat.id, N.pow_succ_r'.
  pose proof (N.size_gt n). lia.
Qed.

Lemma str_of_int_chars z : forallb int_char (str_of_int z) = true.
Proof.
  assert (forall n, forallb int_char (str_of_N n) = true) as H.
  { intros n. pose proof (str_of_N_digits n) as Hd.
    rewrite forallb_forall in *. intros c Hc. unfold int_char.
    by rewrite (Hd c Hc). }
  destruct z; simpl; by rewrite ?H.
Qed.

Lemma str_of_int_truthy z : truthy (str_of_int z) = true.
Proof. destruct z; unfold str_of_int; try apply str_of_N_truthy; done. Qed.

(** A needle without digits and minus signs lies on one side of a
    rendered integer. *)
Lemma contains_around_int needle a z b :
  truthy needle = true ->
  forallb (fun c => negb (int_char c)) needle = true ->
  contains needle (a ++ str_of_int z ++ b)
  = contains needle a || contains needle b.
Proof.
  intros Hn Hplain. apply contains_sep_run; [done | apply str_of_int_truthy |].
  pose proof (str_of_int_chars z) as Hz. rewrite forallb_forall in Hz, Hplain.
  apply Forall_forall. intros c Hc Hin.
  apply list_elem_of_In in Hc, Hin.
  specialize (Hz c Hc). specialize (Hplain c Hin). by rewrite Hz in Hplain.
Qed.

End Decimal.

(** ** The detail dictionary *)

Lemma detail_mapping_cases k d :
  detail_mapping !! k = Some d -> d ∈ detail_phrases.
Proof.
  unfold detail_mapping, detail_phrases.
  rewrite !lookup_insert_Some, lookup_empty, !elem_of_cons.
  intros [[_ <-]|[_ [[_ <-]|[_ [[_ <-]|[_ [[_ <-]|[_ [=]]]]]]]]]; auto.
Qed.

Lemma detail_phrase_cases o d :
  detail_phrase o = Ok d -> d ∈ detail_phrases.
Proof.
  unfold detail_phrase. destruct (detail_mapping !! detail_level o) eqn:E; [|done].
  intros [= <-]. by eapply detail_mapping_cases.
Qed.

(** ** The question-type phrase *)

(** C2. For every combination of the three flags, the phrase is the
    concatenation, separated by a comma and a space, of the enabled labels
    in the fixed order, and it is "practice questions" when no flag is
    set; the eight values are those of [phrase_table]. *)
Theorem question_type_str_spec (o : Options) :
  question_type_str o = question_type_phrase_spec o
  /\ question_type_str o
     = phrase_table (include_mcq o) (include_short o) (include_essay o)
  /\ (enabled o = [] -> question_type_str o = lit "practice questions").
Proof.
  destruct o as [md gt dl n [] [] []]; repeat split; try reflexivity;
    by intros [=].
Qed.

(** ** The branch on the guide type *)

Lemma str_eqb_false (a b : str) : a <> b -> str_eqb a b = false.
Proof. intros. unfold str_eqb. by apply bool_decide_eq_false. Qed.

Lemma str_eqb_true (a b : str) : str_eqb a b = true <-> a = b.
Proof. unfold str_eqb. apply bool_decide_eq_true. Qed.

(** C10. A guide type that is none of "Comprehensive (All sections)",
    "Summary Only" and "Definitions Focus" gets the Practice Questions
    Focus template, whatever the other options are: the last branch
    catches every other string and reads no dictionary, so that prompt
    construction cannot fail there. *)
Theorem build_prompt_catch_all (study_material : str) (o : Options) :
  guide_type o <> lit "Comprehensive (All sections)" ->
  guide_type o <> lit "Summary Only" ->
  guide_type o <> lit "Definitions Focus" ->
  build_prompt study_material o = Ok (questions_prompt study_material o).
Proof.
  intros H1 H2 H3. unfold build_prompt.
  by rewrite !str_eqb_false.
Qed.

Lemma build_prompt_catch_all_witness :
  build_prompt sample_material flashcards_options
  = Ok (questions_prompt sample_material flashcards_options).
Proof. apply build_prompt_catch_all; discriminate. Defined.

(** ** The handler of the Generate button *)

Section Handler.

Variable remote : Request -> Reply.

Lemma generate_request_prompt s m o r :
  r ∈ requests (generate remote s m o) -> build_prompt m o = Ok (req_user r).
Proof.
  unfold generate.
  destruct (negb (truthy_opt (api_key s))); [by intros ?%elem_of_nil|].
  destruct (negb (truthy m) || _); [by intros ?%elem_of_nil|].
  destruct (build_prompt m o) as [p|e]; [|by intros ?%elem_of_nil].
  destruct (remote _); [|destruct (first_choice _)];
    cbn [requests]; by intros ->%list_elem_of_singleton.
Qed.

Lemma strip_nil_length m : truthy m = false -> length (strip m) = 0%nat.
Proof. by destruct m. Qed.

Lemma generate_gate s m o :
  truthy_opt (api_key s) = true ->
  (length (strip m) <? 50)%nat = false ->
  generate remote s m o
  = match build_prompt m o with
    | Raise e =>
        {| session_after := s; outcome := GenerationError e; requests := [] |}
    | Ok prompt =>
        let req :=
          {| req_api_key := default [] (api_key s);
             req_system := system_content;
             req_user := prompt;
             req_model := model o;
             req_temperature := 7 # 10;
             req_max_tokens := 8000 |} in
        match remote req with
        | Raises msg =>
            {| session_after := s; outcome := GenerationError (RemoteError msg);
               requests := [req] |}
        | Completion choices =>
            match first_choice choices with
            | Raise e =>
                {| session_after := s; outcome := GenerationError e;
                   requests := [req] |}
            | Ok content =>
                {| session_after :=
                     {| study_guide := content; api_key := api_key s |};
                   outcome := Generated;
                   requests := [req] |}
            end
        end
    end.
Proof.
  intros Hk Hlen. unfold generate. rewrite Hk, Hlen. cbn [negb].
  destruct m as [|c m]; [done|]. reflexivity.
Qed.

Lemma generate_rejects_short s m o :
  truthy_opt (api_key s) = true ->
  (length (strip m) < 50)%nat ->
  generate remote s m o
  = {| session_after := s; outcome := InsufficientInput; requests := [] |}.
Proof.
  intros Hk Hlen. unfold generate. rewrite Hk. cbn [negb].
  apply Nat.ltb_lt in Hlen. by rewrite Hlen, orb_true_r.
Qed.

Lemma generate_rejects_nokey s m o :
  truthy_opt (api_key s) = false ->
  generate remote s m o
  = {| session_after := s; outcome := MissingCredential; requests := [] |}.
Proof. intros Hk. unfold generate. by rewrite Hk. Qed.

End Handler.

(** C7. Without a credential in the session the handler reports the
    missing credential and does nothing else: no request is issued, the
    stored guide and the rest of the session are as before, and this holds
    for every material (the length is not looked at) and for every option
    set, also one on which prompt construction would raise. *)
Theorem missing_credential_first (remote : Request -> Reply)
    (s : SessionState) (study_material : str) (o : Options) :
  truthy_opt (api_key s) = false ->
  generate remote s study_material o
  = {| session_after := s; outcome := MissingCredential; requests := [] |}.
Proof. intros Hk. unfold generate. by rewrite Hk. Qed.

Lemma missing_credential_first_witness :
  truthy_opt (api_key initial_session) = false
  /\ generate answering_remote initial_session sample_material flashcards_options
     = {| session_after := initial_session; outcome := MissingCredential;
          requests := [] |}.
Proof. split; [reflexivity | by apply missing_credential_first]. Defined.

(** C5, as the code has it. When the session holds a credential, the
    handler reports insufficient input exactly when the trimmed material
    has fewer than 50 characters; the word count plays no part. A rejected
    attempt issues no request, keeps the session, and is rejected for
    every option set, also one on which prompt construction would raise. *)
Theorem insufficient_input_gate (remote : Request -> Reply)
    (s : SessionState) (study_material : str) (o : Options) :
  truthy_opt (api_key s) = true ->
  (outcome (generate remote s study_material o) = InsufficientInput
   <-> (length (strip study_material) < 50)%nat)
  /\ ((length (strip study_material) < 50)%nat ->
      generate remote s study_material o
      = {| session_after := s; outcome := InsufficientInput; requests := [] |}).
Proof.
  intros Hk. split; [split|]; [| intros H | intros H];
    try by rewrite generate_rejects_short.
  destruct (Nat.ltb_spec (length (strip study_material)) 50) as [|Hge]; [done|].
  apply Nat.ltb_ge in Hge. rewrite generate_gate by done.
  destruct (build_prompt _ _); [|done].
  cbn zeta. destruct (remote _); [done|]. by destruct (first_choice _).
Qed.

Lemma insufficient_input_gate_witness :
  truthy_opt (api_key keyed_session) = true
  /\ (outcome (generate answering_remote keyed_session
                (lit "  Too short to study.  ") sample_options)
      = InsufficientInput
      <-> (length (strip (lit "  Too short to study.  ")) < 50)%nat)
  /\ ((length (strip (lit "  Too short to study.  ")) < 50)%nat ->
      generate answering_remote keyed_session
        (lit "  Too short to study.  ") sample_options
      = {| session_after := keyed_session; outcome := InsufficientInput;
           requests := [] |}).
Proof. split; [reflexivity | by apply insufficient_input_gate]. Defined.

(** C5, as specified, fails: with no credential in the session an empty
    material is rejected for the missing credential, not for its length. *)
Lemma insufficient_input_needs_credential :
  ~ insufficient_input_as_specified.
Proof.
  intros H.
  destruct (H answering_remote initial_session [] sample_options) as [_ H'].
  discriminate H'. vm_compute. lia.
Qed.

(** The boundary of the gate: 49 characters are rejected, 50 are not. *)
Example gate_49 :
  outcome (generate answering_remote keyed_session (replicate 49 120) sample_options)
  = InsufficientInput.
Proof. reflexivity. Qed.

Example gate_50 :
  outcome (generate answering_remote keyed_session (replicate 50 120) sample_options)
  = Generated.
Proof. reflexivity. Qed.

(** C8, as the code has it. The stored guide is a single slot that only a
    successful generation overwrites. When both guards pass, the prompt is built and
    the remote call returns a completion with at least one choice, the
    attempt is a success and the slot then holds what the first choice
    carries as [message.content] (its text; nothing, when the choice has
    no content), whatever the slot held before; the other choices are not
    looked at. Success happens in no other way, and every attempt that is
    not a success (a guard, an exception while the prompt is built, a
    failure of the remote call, a completion without choices) leaves the
    session exactly as it was. *)
Theorem result_store_single_slot (remote : Request -> Reply)
    (s : SessionState) (study_material : str) (o : Options) :
  let r := generate remote s study_material o in
  (forall prompt content rest,
     truthy_opt (api_key s) = true ->
     (50 <= length (strip study_material))%nat ->
     build_prompt study_material o = Ok prompt ->
     remote (request_of s o prompt) = Completion (content :: rest) ->
     outcome r = Generated
     /\ session_after r = {| study_guide := content; api_key := api_key s |})
  /\ (outcome r = Generated ->
      exists prompt content rest,
        truthy_opt (api_key s) = true
        /\ (50 <= length (strip study_material))%nat
        /\ build_prompt study_material o = Ok prompt
        /\ remote (request_of s o prompt) = Completion (content :: rest))
  /\ (outcome r <> Generated -> session_after r = s)
  /\ (forall prompt msg,
        truthy_opt (api_key s) = true ->
        (50 <= length (strip study_material))%nat ->
        build_prompt study_material o = Ok prompt ->
        remote (request_of s o prompt) = Raises msg ->
        outcome r = GenerationError (RemoteError msg) /\ session_after r = s)
  /\ (forall prompt,
        truthy_opt (api_key s) = true ->
        (50 <= length (strip study_material))%nat ->
        build_prompt study_material o = Ok prompt ->
        remote (request_of s o prompt) = Completion [] ->
        outcome r = GenerationError IndexError /\ session_after r = s).
Proof.
  cbn zeta.
  destruct (truthy_opt (api_key s)) eqn:Hk;
    [|rewrite generate_rejects_nokey by done; cbn [outcome session_after];
      repeat split; intros; destruct_and?; done].
  destruct (Nat.ltb_spec (length (strip study_material)) 50) as [Hlt|Hge].
  { rewrite generate_rejects_short by done. cbn [outcome session_after].
    repeat split; intros; try done; lia. }
  rewrite generate_gate by (done || by apply Nat.ltb_ge).
  destruct (build_prompt study_material o) as [p|e];
    [|cbn [outcome session_after]; repeat split; intros; done].
  cbn zeta. fold (request_of s o p).
  destruct (remote (request_of s o p)) as [msg|[|content rest]] eqn:E;
    cbn [first_choice outcome session_after];
    repeat split; intros; simplify_eq; try done; try congruence.
  by exists p, content, rest.
Qed.

(** A failure of the remote call keeps an earlier guide. *)
Example remote_failure_keeps_guide :
  generate failing_remote revisiting_session sample_material sample_options
  = {| session_after := revisiting_session;
       outcome := GenerationError (RemoteError (lit "Connection error."));
       requests := requests (generate failing_remote revisiting_session
                               sample_material sample_options) |}.
Proof. reflexivity. Qed.

(** C8, as specified, fails: a completion whose first choice has no
    content is reported as a success and its missing content is stored
    over the earlier guide, so that the slot holds neither what it held
    nor a text of the completion. *)
Lemma empty_content_overwrites_guide : ~ result_store_as_specified.
Proof.
  intros H.
  destruct (H silent_remote revisiting_session sample_material sample_options)
    as [H1 | (req & text & rest & _ & _ & H2)].
  - vm_compute in H1. discriminate H1.
  - vm_compute in H2. discriminate H2.
Qed.

Example empty_content_is_stored :
  outcome (generate silent_remote revisiting_session sample_material sample_options)
  = Generated
  /\ study_guide (session_after
       (generate silent_remote revisiting_session sample_material sample_options))
     = None.
Proof. split; reflexivity. Qed.

Example success_replaces_guide :
  study_guide (session_after
    (generate answering_remote revisiting_session sample_material sample_options))
  = Some (lit "# Photosynthesis").
Proof. reflexivity. Qed.


(** ** Determinism of prompt construction *)

Lemma comprehensive_text_prompt d m o :
  comprehensive_text d m (num_questions o) (question_type_str o)
    (include_mcq o) (include_short o) (include_essay o)
  = comprehensive_prompt d m o.
Proof. reflexivity. Qed.

Lemma questions_text_prompt m o :
  questions_text m (num_questions o) (question_type_str o)
    (include_mcq o) (include_short o) (include_essay o)
  = questions_prompt m o.
Proof. reflexivity. Qed.

Ltac run_block :=
  cbv [mbind mret Block_bind Block_ret load when append_question_type
       assign_detail_mapping assign_question_types assign_question_type_str
       assign_prompt subscript
       l_detail_mapping l_question_types l_question_type_str l_prompt
       include_mcq include_short include_essay guide_type detail_level
       num_questions model fst snd app].

Lemma prompt_block_value m o l :
  (prompt_block m o l).1 = build_prompt m o.
Proof.
  unfold prompt_block, build_prompt, detail_phrase.
  destruct o as [md gt dl n b1 b2 b3], l as [v1 v2 v3 v4].
  cbn [include_mcq include_short include_essay guide_type detail_level num_questions].
  destruct b1, b2, b3;
    (destruct (str_eqb gt _); [|destruct (str_eqb gt _); [|destruct (str_eqb gt _)]]);
    run_block; unfold mbind, result_bind;
    try (destruct (detail_mapping !! dl)); reflexivity.
Qed.

(** C4. Prompt construction is deterministic. The statements that build
    the prompt assign every variable before they read it, so that the
    value of the block does not depend on what its variables hold when it
    starts: two runs on the same material and options give the same
    result from any two states of the variables, in particular a second
    run that starts from what the first one left. The result is the value
    of [build_prompt], and it is the prompt of the request of every
    attempt on that material and those options, whatever the credential,
    the stored guide and the remote service are. *)
Theorem prompt_deterministic (study_material : str) (o : Options)
    (l1 l2 : Locals) :
  (prompt_block study_material o l1).1 = (prompt_block study_material o l2).1
  /\ (prompt_block study_material o (prompt_block study_material o l1).2).1
     = (prompt_block study_material o l1).1
  /\ (prompt_block study_material o l1).1 = build_prompt study_material o
  /\ (forall remote s r,
        r ∈ requests (generate remote s study_material o) ->
        (prompt_block study_material o l1).1 = Ok (req_user r)).
Proof.
  rewrite !prompt_block_value. repeat split.
  intros remote s r Hr. by eapply generate_request_prompt.
Qed.

(** Two runs, the first with unbound variables, the second with those the
    first left, and a third on variables that hold other values. *)
Example prompt_block_twice :
  (prompt_block sample_material sample_options unbound).1
  = Ok (questions_prompt sample_material sample_options)
  /\ (prompt_block sample_material sample_options
       (prompt_block sample_material sample_options unbound).2).1
     = Ok (questions_prompt sample_material sample_options)
  /\ (prompt_block sample_material sample_options
       {| l_detail_mapping := Some ∅;
          l_question_types := Some [lit "flashcards"];
          l_question_type_str := Some (lit "flashcards");
          l_prompt := Some (lit "an earlier prompt") |}).1
     = Ok (questions_prompt sample_material sample_options).
Proof. repeat split. Qed.

(** ** The word-count advisory *)

Lemma split_aux_length cur s :
  length (split_aux cur s)
  = (token_starts (negb (truthy cur)) s + (if truthy cur then 1 else 0))%nat.
Proof.
  revert cur; induction s as [|c s IH]; intros cur.
  - by destruct cur.
  - cbn [split_aux token_starts]. destruct (isspace c) eqn:E.
    + destruct cur as [|x cur]; cbn [length]; rewrite IH; cbn; lia.
    + rewrite IH. destruct cur; cbn; lia.
Qed.

Lemma word_count_tokens s : word_count s = whitespace_delimited_tokens s.
Proof.
  unfold word_count, split, whitespace_delimited_tokens.
  rewrite split_aux_length. cbn. lia.
Qed.

Lemma token_rev cur :
  truthy cur = true -> forallb (fun c => negb (isspace c)) cur = true ->
  token (rev cur).
Proof.
  intros Ht Hc. split.
  - destruct cur as [|x cur]; [done|]. cbn [rev]. by destruct (rev cur).
  - rewrite forallb_forall in *. intros c Hin. apply Hc.
    by apply in_rev.
Qed.

Lemma split_aux_tokens cur s :
  forallb (fun c => negb (isspace c)) cur = true ->
  Forall token (split_aux cur s).
Proof.
  revert cur; induction s as [|c s IH]; intros cur Hcur.
  - destruct cur as [|x cur]; constructor; [by apply token_rev | constructor].
  - cbn [split_aux]. destruct (isspace c) eqn:E.
    + destruct cur as [|x cur]; [by apply IH|].
      constructor; [by apply token_rev | by apply IH].
    + apply IH. cbn [forallb]. by rewrite E.
Qed.

(** The words that [split] returns are whitespace-delimited tokens. *)
Lemma split_tokens s : Forall token (split s).
Proof. by apply split_aux_tokens. Qed.

Lemma classify_spec wc : sufficiency_spec wc (classify wc).
Proof.
  unfold sufficiency_spec, classify.
  destruct (Nat.ltb_spec wc 100); [repeat split; (done || lia)|].
  destruct (Nat.ltb_spec wc 200); repeat split; (done || lia).
Qed.

(** C6, as the code has it. For every material that is not empty, the
    word count shown is the number of whitespace-delimited tokens and the
    class shown is TooShort below 100 words, Short from 100 to 199 and
    Sufficient from 200 on. The class never blocks generation: with a
    credential and at least 50 characters after trimming, the attempt
    passes both guards whatever the class is. *)
Theorem word_count_advisory (study_material : str) :
  study_material <> [] ->
  word_count study_material = whitespace_delimited_tokens study_material
  /\ Forall token (split study_material)
  /\ (exists c,
        advisory study_material
        = Some (whitespace_delimited_tokens study_material, c)
        /\ sufficiency_spec (whitespace_delimited_tokens study_material) c)
  /\ (forall remote s o,
        truthy_opt (api_key s) = true ->
        (50 <= length (strip study_material))%nat ->
        outcome (generate remote s study_material o) <> InsufficientInput
        /\ outcome (generate remote s study_material o) <> MissingCredential).
Proof.
  intros Hne. split; [apply word_count_tokens|].
  split; [apply split_tokens|]. split.
  - exists (classify (word_count study_material)). unfold advisory.
    destruct study_material; [done|]. cbn [truthy].
    rewrite <- word_count_tokens. split; [done | apply classify_spec].
  - intros remote s o Hk Hlen. apply Nat.ltb_ge in Hlen.
    rewrite generate_gate by done.
    destruct (build_prompt _ _); [|done].
    cbn zeta. destruct (remote _); [done|]. by destruct (first_choice _).
Qed.

Lemma word_count_advisory_witness :
  sample_material <> []
  /\ word_count sample_material = whitespace_delimited_tokens sample_material
  /\ Forall token (split sample_material)
  /\ (exists c,
        advisory sample_material
        = Some (whitespace_delimited_tokens sample_material, c)
        /\ sufficiency_spec (whitespace_delimited_tokens sample_material) c)
  /\ (forall remote s o,
        truthy_opt (api_key s) = true ->
        (50 <= length (strip sample_material))%nat ->
        outcome (generate remote s sample_material o) <> InsufficientInput
        /\ outcome (generate remote s sample_material o) <> MissingCredential).
Proof. split; [discriminate | apply word_count_advisory; discriminate]. Defined.

(** C6, as specified, fails: nothing is shown for the empty material,
    neither a word count nor a class. *)
Lemma no_advisory_for_empty_material : ~ advisory_as_specified.
Proof. intros H. destruct (H []) as (c & Hc & _). discriminate Hc. Qed.

(** A material of nine words is classed TooShort and is generated from. *)
Example too_short_is_generated :
  advisory sample_material = Some (9%nat, TooShort)
  /\ outcome (generate answering_remote keyed_session sample_material sample_options)
     = Generated.
Proof. split; reflexivity. Qed.

Example classify_boundaries :
  classify 99 = TooShort /\ classify 100 = Short /\ classify 150 = Short
  /\ classify 199 = Short /\ classify 200 = Sufficient /\ classify 250 = Sufficient.
Proof. repeat split. Qed.

(** ** The download buttons *)

Section Stamp.

Lemma digits_of_length fuel k n acc :
  (0 < k)%nat -> n < 10 ^ N.of_nat k ->
  (length (digits_of fuel n acc) <= length acc + k)%nat.
Proof.
  revert k n acc; induction fuel as [|fuel IH]; intros k n acc Hk Hn;
    cbn [digits_of]; [lia|].
  destruct (N.eqb_spec (n / 10) 0) as [Hz|Hz]; [cbn [length]; lia|].
  destruct k as [|[|k]]; [lia| |].
  - exfalso. apply Hz. apply N.div_small. by change (10 ^ N.of_nat 1) with 10 in Hn.
  - etrans; [apply (IH (S k)); [lia|]|cbn [length]; lia].
    rewrite Nat2N.inj_succ, N.pow_succ_r' in Hn.
    apply N.Div0.div_lt_upper_bound. lia.
Qed.

Lemma N_of_digits_zeros k s :
  N_of_digits (replicate k 48 ++ s) = N_of_digits s.
Proof.
  unfold N_of_digits. rewrite fold_left_app. f_equal.
  induction k as [|k IH]; [done|]. cbn [replicate fold_left].
  by change (10 * 0 + (48 - 48)) with 0.
Qed.

Lemma zero_pad_field width n :
  (0 < width)%nat -> n < 10 ^ N.of_nat width -> field width n (zero_pad width n).
Proof.
  intros Hw Hn. unfold field, digits, zero_pad.
  pose proof (digits_of_length (S (N.to_nat (N.size n))) width n [] Hw Hn) as Hlen.
  fold (str_of_N n) in Hlen. cbn [length] in Hlen.
  repeat split.
  - rewrite length_app, length_replicate. lia.
  - rewrite forallb_app, str_of_N_digits, andb_true_r.
    apply forallb_forall. intros c Hc%list_elem_of_In.
    by apply elem_of_replicate in Hc as [-> _].
  - by rewrite N_of_digits_zeros, str_of_N_value.
Qed.

(** On a reading of the clock with a four-digit year, the stamp has the
    pattern [YYYYMMDD_HHMMSS] and its fields denote the reading. *)
Lemma strftime_stamp t : valid_datetime t = true -> stamp_of t (strftime t).
Proof.
  unfold valid_datetime. rewrite !andb_true_iff, !N.leb_le, !N.ltb_lt.
  intros H.
  exists (zero_pad 4 (year t)), (zero_pad 2 (month t)), (zero_pad 2 (day t)),
    (zero_pad 2 (hour t)), (zero_pad 2 (minute t)), (zero_pad 2 (second t)).
  split; [done|].
  change (10 ^ N.of_nat 4) with 10000 in *.
  repeat split; apply zero_pad_field; try lia;
    (change (10 ^ N.of_nat 4) with 10000 || change (10 ^ N.of_nat 2) with 100);
    lia.
Qed.

End Stamp.

(** C9, as the code has it. When the stored guide is not empty, the two
    buttons offer the same bytes, the stored guide, as "text/markdown" and
    as "text/plain"; each name is "study_guide_", a stamp and the suffix
    ".md" or ".txt", and each stamp is that of the clock reading taken when
    its button is rendered, in the pattern YYYYMMDD_HHMMSS. When the two
    readings agree the names differ in the suffix only. *)
Theorem export_payloads (now : nat -> DateTime) (s : SessionState) (guide : str) :
  study_guide s = Some guide ->
  truthy guide = true ->
  valid_datetime (now 0%nat) = true ->
  valid_datetime (now 1%nat) = true ->
  exists md txt stamp_md stamp_txt,
    download_buttons now s = Some (md, txt)
    /\ data md = guide /\ data txt = guide
    /\ mime md = lit "text/markdown" /\ mime txt = lit "text/plain"
    /\ file_name md = lit "study_guide_" ++ stamp_md ++ lit ".md"
    /\ file_name txt = lit "study_guide_" ++ stamp_txt ++ lit ".txt"
    /\ stamp_of (now 0%nat) stamp_md /\ stamp_of (now 1%nat) stamp_txt
    /\ (now 0%nat = now 1%nat -> stamp_md = stamp_txt).
Proof.
  intros Hg Ht H0 H1. unfold download_buttons. rewrite Hg, Ht.
  eexists _, _, (strftime (now 0%nat)), (strftime (now 1%nat)).
  split; [done|]. cbn [data mime file_name].
  repeat split; try by apply strftime_stamp.
  by intros ->.
Qed.

Lemma export_payloads_witness :
  study_guide revisiting_session = Some (lit "# Earlier guide")
  /\ truthy (lit "# Earlier guide") = true
  /\ valid_datetime (new_year_clock 0) = true
  /\ valid_datetime (new_year_clock 1) = true
  /\ exists md txt stamp_md stamp_txt,
    download_buttons new_year_clock revisiting_session = Some (md, txt)
    /\ data md = lit "# Earlier guide" /\ data txt = lit "# Earlier guide"
    /\ mime md = lit "text/markdown" /\ mime txt = lit "text/plain"
    /\ file_name md = lit "study_guide_" ++ stamp_md ++ lit ".md"
    /\ file_name txt = lit "study_guide_" ++ stamp_txt ++ lit ".txt"
    /\ stamp_of (new_year_clock 0) stamp_md
    /\ stamp_of (new_year_clock 1) stamp_txt
    /\ (new_year_clock 0 = new_year_clock 1 -> stamp_md = stamp_txt).
Proof.
  repeat (split; [reflexivity|]).
  apply export_payloads; reflexivity.
Defined.

(** What the two runs of the counterexample show: the guide is generated
    while the clock reads 23:59:59 on 31 December 2025, and the next run
    names the files after its own two readings of the clock. *)
Example names_after_a_later_run :
  page_outcome (script answering_remote (fun _ => new_year_eve) initial_session clicking)
  = Some Generated
  /\ strftime new_year_eve = lit "20251231_235959"
  /\ ((fun d => (file_name d.1, file_name d.2)) <$>
      page_downloads
        (script answering_remote new_year_clock
           (page_session
              (script answering_remote (fun _ => new_year_eve) initial_session clicking))
           idle))
     = Some (lit "study_guide_20260101_000000.md",
             lit "study_guide_20260101_000001.txt").
Proof. repeat split. Qed.

(** C9, as specified, fails: the names carry the time at which the buttons
    are rendered, read once for each button, not the time of the
    generation. *)
Lemma export_stamp_is_not_generation_time : ~ export_as_specified.
Proof.
  intros H.
  destruct (H answering_remote new_year_clock new_year_eve initial_session
              clicking idle eq_refl eq_refl eq_refl) as (d & Hd & _ & Hmd & _).
  vm_compute in Hd. injection Hd as <-. vm_compute in Hmd. discriminate Hmd.
Qed.

(** ** The templates *)

Section Templates.

Implicit Types h d m : str.

Lemma not_elem_of_10 h :
  forallb (fun c => negb (c =? 10)) h = true -> 10 ∉ h.
Proof.
  rewrite forallb_forall. intros H Hin%list_elem_of_In.
  specialize (H _ Hin). by rewrite N.eqb_refl in H.
Qed.

Lemma splits_plain h a b :
  truthy h = true -> forallb plain h = true -> splits_at_int h a b.
Proof. intros Ht Hp z. by apply contains_around_int. Qed.


Lemma contains_comprehensive h d m o :
  truthy h = true -> 10 ∉ h ->
  splits_at_int h comprehensive_header_left (comprehensive_header_right o) ->
  contains h (comprehensive_prompt d m o)
  = contains h m || existsb (contains h) (comprehensive_frame d o).
Proof.
  intros Ht Hnl Hint. unfold comprehensive_prompt, comprehensive_frame.
  rewrite contains_unlines by done. cbn [existsb].
  unfold comprehensive_questions_header.
  change (lit "5. **PRACTICE QUESTIONS** - Create ") with comprehensive_header_left.
  change (lit " " ++ question_type_str o ++ lit ":")
    with (comprehensive_header_right o).
  rewrite Hint.
  destruct (contains h m);
    rewrite ?orb_true_l, ?orb_true_r, ?orb_false_l, <- ?orb_assoc; reflexivity.
Qed.

Lemma contains_summary h d m :
  truthy h = true -> 10 ∉ h ->
  contains h (summary_prompt d m)
  = contains h m || existsb (contains h) (summary_frame d).
Proof.
  intros Ht Hnl. unfold summary_prompt, summary_frame.
  rewrite contains_unlines by done. cbn [existsb].
  destruct (contains h m);
    rewrite ?orb_true_l, ?orb_true_r, ?orb_false_l, <- ?orb_assoc; reflexivity.
Qed.

Lemma contains_definitions h d m :
  truthy h = true -> 10 ∉ h ->
  contains h (definitions_prompt d m)
  = contains h m || existsb (contains h) (definitions_frame d).
Proof.
  intros Ht Hnl. unfold definitions_prompt, definitions_frame.
  rewrite contains_unlines by done. cbn [existsb].
  destruct (contains h m);
    rewrite ?orb_true_l, ?orb_true_r, ?orb_false_l, <- ?orb_assoc; reflexivity.
Qed.

Lemma contains_questions h m o :
  truthy h = true -> 10 ∉ h ->
  splits_at_int h questions_opening_left questions_opening_right ->
  contains h (questions_prompt m o)
  = contains h m || existsb (contains h) (questions_frame o).
Proof.
  intros Ht Hnl Hint. unfold questions_prompt, questions_frame.
  rewrite contains_unlines by done. cbn [existsb].
  unfold questions_opening.
  change (lit "Create ") with questions_opening_left.
  change (lit " practice questions from the following study material.")
    with questions_opening_right.
  rewrite Hint.
  destruct (contains h m);
    rewrite ?orb_true_l, ?orb_true_r, ?orb_false_l, <- ?orb_assoc; reflexivity.
Qed.

(** What [build_prompt] returns, by family. *)
Lemma build_prompt_inv m o p :
  build_prompt m o = Ok p ->
  exists d,
    p = template (family_of (guide_type o)) d m o
    /\ (family_of (guide_type o) = QuestionsFocus \/ d ∈ detail_phrases).
Proof.
  unfold build_prompt, family_of.
  destruct (str_eqb _ _); [|destruct (str_eqb _ _); [|destruct (str_eqb _ _)]];
    cbn [template];
    try (unfold mbind, result_bind; destruct (detail_phrase o) as [d|e] eqn:E;
         [|done]; intros [= <-]; exists d; split; [done | right];
         by eapply detail_phrase_cases).
  intros [= <-]. exists []. by split; [|left].
Qed.

End Templates.

(** ** Template exclusivity *)

Section Exclusivity.

Lemma section_header_shape f h :
  h ∈ section_headers f ->
  truthy h = true /\ (10 ∉ h) /\ forallb plain h = true.
Proof.
  intros H.
  assert (truthy h && forallb (fun c => negb (c =? 10)) h && forallb plain h = true)
    as Hb.
  { destruct f; cbn [section_headers] in H;
      repeat (apply elem_of_cons in H as [->|H]; [by vm_compute|]);
      by apply elem_of_nil in H. }
  apply andb_true_iff in Hb as [[Ht Hnl]%andb_true_iff Hp].
  by split; [|split; [apply not_elem_of_10|]].
Qed.

(** A header occurs in the text of a template exactly when the template
    is that of its family. *)
Lemma section_header_scan f g h d o :
  h ∈ section_headers f ->
  g = QuestionsFocus \/ d ∈ detail_phrases ->
  existsb (contains h) (frame g d o) = bool_decide (f = g).
Proof.
  intros H Hd. destruct o as [md gt dl n b1 b2 b3].
  assert (forall d', g <> QuestionsFocus -> d' ∈ detail_phrases ->
            existsb (contains h) (frame g d'
              {| model := []; guide_type := []; detail_level := [];
                 num_questions := 0; include_mcq := b1; include_short := b2;
                 include_essay := b3 |}) = bool_decide (f = g)) as Hdet.
  { intros d' _ Hd'. unfold detail_phrases in Hd'.
    destruct f; cbn [section_headers] in H;
      repeat (apply elem_of_cons in H as [->|H];
        [ destruct g, b1, b2, b3;
          repeat (apply elem_of_cons in Hd' as [->|Hd']; [by vm_compute|]);
          by apply elem_of_nil in Hd' |]);
      by apply elem_of_nil in H. }
  destruct g; try (by apply (Hdet d); [discriminate | destruct Hd]).
  destruct f; cbn [section_headers] in H;
    repeat (apply elem_of_cons in H as [->|H];
      [by destruct b1, b2, b3; vm_compute|]);
    by apply elem_of_nil in H.
Qed.

Lemma contains_template f h d m o :
  truthy h = true -> 10 ∉ h -> forallb plain h = true ->
  contains h (template f d m o)
  = contains h m || existsb (contains h) (frame f d o).
Proof.
  intros Ht Hnl Hp. destruct f; cbn [template frame].
  - apply contains_comprehensive; try done. by apply splits_plain.
  - by apply contains_summary.
  - by apply contains_definitions.
  - apply contains_questions; try done. by apply splits_plain.
Qed.

End Exclusivity.

(** C3, as the code has it. The prompt is the template of the one family
    that the guide type selects. A distinguishing header of a family
    occurs in the prompt exactly when that family is the selected one or
    the study material, which every template embeds verbatim, holds the
    header itself. *)
Theorem template_exclusive (study_material : str) (o : Options) (prompt : str) :
  build_prompt study_material o = Ok prompt ->
  forall f h,
    h ∈ section_headers f ->
    contains h prompt = true
    <-> f = family_of (guide_type o) \/ contains h study_material = true.
Proof.
  intros (d & -> & Hd)%build_prompt_inv f h Hh.
  destruct (section_header_shape f h Hh) as (Ht & Hnl & Hp).
  rewrite contains_template by done.
  rewrite (section_header_scan f _ h d o Hh Hd).
  rewrite orb_true_iff, bool_decide_eq_true. tauto.
Qed.

Lemma template_exclusive_witness :
  build_prompt sample_material summary_options
  = Ok (summary_prompt (lit "concise and to-the-point") sample_material)
  /\ forall f h,
    h ∈ section_headers f ->
    contains h (summary_prompt (lit "concise and to-the-point") sample_material) = true
    <-> f = family_of (guide_type summary_options)
        \/ contains h sample_material = true.
Proof.
  split; [reflexivity|].
  apply (template_exclusive sample_material summary_options). reflexivity.
Defined.

(** C3, as specified, fails: a material that quotes a header of another
    family brings that header into the prompt. *)
Lemma header_of_another_family_in_material : ~ headers_as_specified.
Proof.
  intros H.
  specialize (H glossary_material summary_options _ DefinitionsFocus (lit "**TERM**")
                eq_refl).
  discriminate H; [discriminate | vm_compute; right; left].
Qed.

Example glossary_prompt_has_term :
  family_of (guide_type summary_options) = SummaryOnly
  /\ lit "**TERM**" ∈ section_headers DefinitionsFocus
  /\ (exists p, build_prompt glossary_material summary_options = Ok p
              /\ contains (lit "**TERM**") p = true).
Proof.
  split; [reflexivity|]. split; [vm_compute; right; left|].
  eexists. split; reflexivity.
Qed.

(** ** The bullet lines of the question section *)

Section Bullets.

Implicit Types (f : Family) (t : QuestionType).

Lemma join_app (l1 l2 : list str) :
  l1 <> [] -> l2 <> [] ->
  unlines (l1 ++ l2) = unlines l1 ++ 10 :: unlines l2.
Proof.
  intros H1 H2. induction l1 as [|x [|y l1] IH]; [done| |].
  - by destruct l2.
  - change (unlines ((x :: y :: l1) ++ l2))
      with (x ++ 10 :: unlines ((y :: l1) ++ l2)).
    rewrite IH by done.
    change (unlines (x :: y :: l1)) with (x ++ 10 :: unlines (y :: l1)).
    by rewrite <- app_assoc.
Qed.

Lemma lines_unlines_app (l1 l2 : list str) :
  l1 <> [] -> l2 <> [] ->
  lines (unlines (l1 ++ l2)) = lines (unlines l1) ++ lines (unlines l2).
Proof. intros H1 H2. rewrite join_app by done. apply lines_aux_sep. Qed.

Lemma lines_unlines_id (ls : list str) :
  ls <> [] -> Forall (fun l => 10 ∉ l) ls -> lines (unlines ls) = ls.
Proof.
  intros Hne H. induction H as [|x ls Hx H IH]; [done|].
  destruct ls as [|y ls]; [by apply lines_single|].
  rewrite lines_unlines_cons, lines_single, IH by done. done.
Qed.

Lemma int_char_not_newline s : forallb int_char s = true -> 10 ∉ s.
Proof.
  rewrite forallb_forall. intros H Hin%list_elem_of_In.
  by specialize (H _ Hin).
Qed.

Lemma not_elem_of_app_10 (a b : str) : 10 ∉ a -> 10 ∉ b -> 10 ∉ a ++ b.
Proof. intros Ha Hb [?|?]%elem_of_app; tauto. Qed.

Lemma block_lines_no_newline f o :
  Forall (fun l => 10 ∉ l)
    [ block_header f o;
      slot (flag MCQ o) (bullet f MCQ);
      slot (flag ShortAnswer o) (bullet f ShortAnswer);
      slot (flag Essay o) (bullet f Essay);
      [];
      block_closing f ].
Proof.
  assert (10 ∉ block_header f o) as Hh.
  { destruct f; cbn [block_header];
      unfold comprehensive_questions_header, questions_header;
      repeat apply not_elem_of_app_10;
      try apply int_char_not_newline, str_of_int_chars;
      destruct o as [md gt dl n [] [] []]; by apply not_elem_of_10. }
  destruct o as [md gt dl n b1 b2 b3]. cbn [flag include_mcq include_short include_essay].
  repeat constructor; try done;
    destruct f, b1, b2, b3; by apply not_elem_of_10.
Qed.





End Bullets.



(** With only the essay type enabled, the prompt holds the essay bullet
    and neither of the two others, and two empty lines stand where the
    bullets of the disabled types would be. *)
Example essay_only_prompt :
  question_type_str sample_options = lit "essay questions"
  /\ lines (questions_prompt sample_material sample_options)
     = [ lit "Create 5 practice questions from the following study material.";
         [];
         lit "STUDY MATERIAL:";
         sample_material;
         [];
         lit "Generate essay questions:";
         [];
         [];
         lit "- Essay questions with key points that should be covered";
         [];
         lit "Include a variety of difficulty levels and ensure questions cover all major concepts.";
         lit "Format with clear markdown and proper numbering." ]
  /\ contains questions_essay (questions_prompt sample_material sample_options) = true
  /\ contains questions_mcq (questions_prompt sample_material sample_options) = false
  /\ contains questions_short (questions_prompt sample_material sample_options) = false.
Proof. repeat split. Qed.

Example comprehensive_block :
  question_block Comprehensive comprehensive_options
    (comprehensive_prompt (lit "extremely detailed with in-depth explanations")
       sample_material comprehensive_options)
  = [ []; comprehensive_short; comprehensive_essay; [] ].
Proof. reflexivity. Qed.


(** * Further properties *)

(** ** Requests *)

(** X1. An attempt calls [client.chat.completions.create] at most once,
    and it makes the call exactly when the session holds a credential, the
    trimmed material has at least 50 characters and the prompt is built
    without an exception. What the client does inside one call is not
    part of the script. *)
Theorem request_iff_guards (remote : Request -> Reply) (s : SessionState)
    (study_material : str) (o : Options) :
  (length (requests (generate remote s study_material o)) <= 1)%nat
  /\ (requests (generate remote s study_material o) <> []
      <-> truthy_opt (api_key s) = true
          /\ (50 <= length (strip study_material))%nat
          /\ exists prompt, build_prompt study_material o = Ok prompt).
Proof.
  destruct (truthy_opt (api_key s)) eqn:Hk.
  - destruct (Nat.ltb_spec (length (strip study_material)) 50) as [Hlt|Hge].
    + rewrite generate_rejects_short by done. cbn. split; [lia|].
      split; [done | intros (_ & ? & _); lia].
    + rewrite generate_gate by (done || by apply Nat.ltb_ge).
      destruct (build_prompt study_material o) as [p|e].
      * cbn zeta. destruct (remote _); [|destruct (first_choice _)]; cbn;
          (split; [lia|]); split; try done; intros _; eauto.
      * cbn. split; [lia|]. split; [done | by intros (_ & _ & ? & ?)].
  - rewrite missing_credential_first by done. cbn. split; [lia|].
    split; [done | by intros (? & _)].
Qed.

Lemma request_carries (remote : Request -> Reply) (s : SessionState)
    (study_material : str) (o : Options) (r : Request) :
  r ∈ requests (generate remote s study_material o) ->
  api_key s = Some (req_api_key r)
  /\ truthy (req_api_key r) = true
  /\ req_model r = model o
  /\ req_system r = system_content
  /\ req_temperature r = 7 # 10
  /\ req_max_tokens r = 8000%Z
  /\ build_prompt study_material o = Ok (req_user r).
Proof.
  intros Hr. pose proof (generate_request_prompt _ _ _ _ _ Hr) as Hp.
  revert Hr. unfold generate.
  destruct (api_key s) as [k|] eqn:Hk; cbn [truthy_opt negb];
    [|by intros ?%elem_of_nil].
  destruct (truthy k) eqn:Ht; cbn [negb]; [|by intros ?%elem_of_nil].
  destruct (negb (truthy study_material) || _); [by intros ?%elem_of_nil|].
  destruct (build_prompt study_material o) as [p|e]; [|by intros ?%elem_of_nil].
  cbn zeta. destruct (remote _); [|destruct (first_choice _)]; cbn [requests];
    intros ->%list_elem_of_singleton; by cbn.
Qed.


(** X2. A request that is issued carries the credential of the session,
    the selected model, the fixed system instruction, the temperature 0.7,
    the limit of 8000 tokens, and the prompt as the user message. *)
Theorem request_fields (remote : Request -> Reply) (s : SessionState)
    (study_material : str) (o : Options) (r : Request) :
  r ∈ requests (generate remote s study_material o) ->
  api_key s = Some (req_api_key r)
  /\ truthy (req_api_key r) = true
  /\ req_model r = model o
  /\ req_system r = system_content
  /\ req_temperature r = 7 # 10
  /\ req_max_tokens r = 8000%Z
  /\ build_prompt study_material o = Ok (req_user r).
Proof. apply request_carries. Qed.

Lemma request_fields_witness :
  sample_request (lit "gsk_live")
    ∈ requests (generate failing_remote keyed_session sample_material sample_options)
  /\ api_key keyed_session = Some (req_api_key (sample_request (lit "gsk_live")))
  /\ truthy (req_api_key (sample_request (lit "gsk_live"))) = true
  /\ req_model (sample_request (lit "gsk_live")) = model sample_options
  /\ req_system (sample_request (lit "gsk_live")) = system_content
  /\ req_temperature (sample_request (lit "gsk_live")) = 7 # 10
  /\ req_max_tokens (sample_request (lit "gsk_live")) = 8000%Z
  /\ build_prompt sample_material sample_options
     = Ok (req_user (sample_request (lit "gsk_live"))).
Proof.
  assert (sample_request (lit "gsk_live")
    ∈ requests (generate failing_remote keyed_session sample_material sample_options))
    as H by (vm_compute; left).
  split; [exact H|]. exact (request_fields _ _ _ _ _ H).
Defined.

(** ** The detail dictionary in the prompt *)

Lemma build_prompt_raise_cases (study_material : str) (o : Options) (e : Exn) :
  build_prompt study_material o = Raise e
  <-> family_of (guide_type o) <> QuestionsFocus
      /\ detail_mapping !! detail_level o = None
      /\ e = KeyError (detail_level o).
Proof.
  unfold build_prompt, family_of, detail_phrase, mbind, result_bind.
  destruct (str_eqb _ _); [|destruct (str_eqb _ _); [|destruct (str_eqb _ _)]];
    try (destruct (detail_mapping !! detail_level o) eqn:E;
         [split; [done | by intros (_ & ? & _)]
         |split; [by intros [= <-] | by intros (_ & _ & ->)]]).
  split; [done | by intros (? & _)].
Qed.

(** X3. Prompt construction raises exactly when the guide type is one of
    the three that read the dictionary and the detail level is not one of
    its keys; the exception is then the [KeyError] of that level. *)
Theorem build_prompt_raises_iff (study_material : str) (o : Options) (e : Exn) :
  build_prompt study_material o = Raise e
  <-> family_of (guide_type o) <> QuestionsFocus
      /\ detail_mapping !! detail_level o = None
      /\ e = KeyError (detail_level o).
Proof. apply build_prompt_raise_cases. Qed.

(** X4. With a credential and a long enough material, a detail level that
    is not a key of the dictionary ends the attempt in the [except]
    branch, for the three guide types that read it: the [KeyError] is
    reported, no request is issued and the session is kept. *)
Theorem generate_key_error (remote : Request -> Reply) (s : SessionState)
    (study_material : str) (o : Options) :
  truthy_opt (api_key s) = true ->
  (50 <= length (strip study_material))%nat ->
  family_of (guide_type o) <> QuestionsFocus ->
  detail_mapping !! detail_level o = None ->
  generate remote s study_material o
  = {| session_after := s;
       outcome := GenerationError (KeyError (detail_level o));
       requests := [] |}.
Proof.
  intros Hk Hlen Hf Hd. rewrite generate_gate by (done || by apply Nat.ltb_ge).
  assert (build_prompt study_material o = Raise (KeyError (detail_level o))) as ->
    by by apply build_prompt_raise_cases.
  done.
Qed.

Lemma generate_key_error_witness :
  truthy_opt (api_key keyed_session) = true
  /\ (50 <= length (strip sample_material))%nat
  /\ family_of (guide_type invalid_detail_options) <> QuestionsFocus
  /\ detail_mapping !! detail_level invalid_detail_options = None
  /\ generate answering_remote keyed_session sample_material invalid_detail_options
     = {| session_after := keyed_session;
          outcome := GenerationError (KeyError (detail_level invalid_detail_options));
          requests := [] |}.
Proof.
  assert ((50 <= length (strip sample_material))%nat) as Hlen
    by (vm_compute; lia).
  assert (family_of (guide_type invalid_detail_options) <> QuestionsFocus) as Hf
    by (vm_compute; discriminate).
  split; [reflexivity|]. split; [exact Hlen|]. split; [exact Hf|].
  split; [reflexivity|].
  exact (generate_key_error answering_remote keyed_session sample_material
           invalid_detail_options eq_refl Hlen Hf eq_refl).
Defined.

(** X5. For each of the four labels of the detail slider, prompt
    construction succeeds on every material, guide type and question
    settings. *)
Theorem build_prompt_total_on_slider (study_material : str) (o : Options) :
  detail_level o ∈ detail_levels ->
  exists prompt, build_prompt study_material o = Ok prompt.
Proof.
  intros Hd. destruct (build_prompt study_material o) as [p|e] eqn:E; [eauto|].
  apply build_prompt_raise_cases in E as (_ & Hnone & _).
  unfold detail_levels in Hd.
  repeat (apply elem_of_cons in Hd as [Hd|Hd];
          [by rewrite Hd in Hnone; vm_compute in Hnone|]).
  by apply elem_of_nil in Hd.
Qed.

Lemma build_prompt_total_on_slider_witness :
  detail_level comprehensive_options ∈ detail_levels
  /\ exists prompt, build_prompt sample_material comprehensive_options = Ok prompt.
Proof.
  assert (detail_level comprehensive_options ∈ detail_levels) as H
    by (vm_compute; right; right; right; left).
  split; [exact H | exact (build_prompt_total_on_slider _ _ H)].
Defined.

(** ** The material and the options in the prompt *)

Section Embedding.

Implicit Types (f : Family) (d m : str) (o : Options).

(** The prompt is the template of the selected family, with the phrase of
    the detail level where the family reads it. *)
Lemma build_prompt_template m o p :
  build_prompt m o = Ok p ->
  exists d, forall m', build_prompt m' o = Ok (template (family_of (guide_type o)) d m' o).
Proof.
  unfold build_prompt, family_of, mbind, result_bind.
  destruct (str_eqb _ _); [|destruct (str_eqb _ _); [|destruct (str_eqb _ _)]];
    try (destruct (detail_phrase o) as [d|e]; [|done]; intros _; by exists d).
  intros _. by exists [].
Qed.

Lemma unlines_around (l1 l2 : list str) m :
  l1 <> [] -> l2 <> [] ->
  unlines (l1 ++ m :: l2) = (unlines l1 ++ [10]) ++ m ++ (10 :: unlines l2).
Proof.
  intros H1 H2. rewrite join_app by done.
  change (m :: l2) with ([m] ++ l2). rewrite join_app by done.
  by rewrite <- app_assoc.
Qed.

Lemma template_around f d o :
  exists pre post, forall m, template f d m o = pre ++ m ++ post.
Proof.
  destruct f; cbn [template];
    unfold comprehensive_prompt, summary_prompt, definitions_prompt,
      questions_prompt;
    eexists (unlines [_; _; _] ++ [10]), (10 :: unlines (_ :: _)); intros m;
    match goal with |- unlines (?a :: ?b :: ?c :: m :: ?l) = _ =>
      change (a :: b :: c :: m :: l) with ([a; b; c] ++ m :: l) end;
    by apply unlines_around.
Qed.

End Embedding.

Lemma material_around (study_material : str) (o : Options)
    (prompt : str) :
  build_prompt study_material o = Ok prompt ->
  exists pre post,
    prompt = pre ++ study_material ++ post
    /\ forall m', build_prompt m' o = Ok (pre ++ m' ++ post).
Proof.
  intros H. destruct (build_prompt_template _ _ _ H) as [d Hd].
  destruct (template_around (family_of (guide_type o)) d o) as (pre & post & Ht).
  exists pre, post. split.
  - rewrite Hd in H. injection H as <-. apply Ht.
  - intros m'. by rewrite Hd, Ht.
Qed.


(** X6. Every prompt embeds the study material verbatim, once, between a
    text before and a text after that do not depend on the material: with
    the same options, another material gives the same two texts around
    it. *)
Theorem material_embedded_verbatim (study_material : str) (o : Options)
    (prompt : str) :
  build_prompt study_material o = Ok prompt ->
  exists pre post,
    prompt = pre ++ study_material ++ post
    /\ forall m', build_prompt m' o = Ok (pre ++ m' ++ post).
Proof. apply material_around. Qed.

Lemma material_embedded_verbatim_witness :
  build_prompt sample_material sample_options
  = Ok (questions_prompt sample_material sample_options)
  /\ exists pre post,
    questions_prompt sample_material sample_options
    = pre ++ sample_material ++ post
    /\ forall m', build_prompt m' sample_options = Ok (pre ++ m' ++ post).
Proof.
  split; [reflexivity|].
  exact (material_embedded_verbatim sample_material sample_options _ eq_refl).
Defined.

(** X7. With the same options, two materials that give the same prompt
    are the same material. *)
Theorem prompt_injective_in_material (m1 m2 : str) (o : Options) (prompt : str) :
  build_prompt m1 o = Ok prompt ->
  build_prompt m2 o = Ok prompt ->
  m1 = m2.
Proof.
  intros H1 H2.
  destruct (material_around _ _ _ H1) as (pre & post & -> & Hall).
  rewrite Hall in H2. injection H2 as H2.
  by apply app_inv_head, app_inv_tail in H2.
Qed.

Lemma prompt_injective_in_material_witness :
  build_prompt sample_material sample_options
  = Ok (questions_prompt sample_material sample_options)
  /\ build_prompt sample_material sample_options
     = Ok (questions_prompt sample_material sample_options)
  /\ sample_material = sample_material.
Proof.
  split; [reflexivity|]. split; [reflexivity|].
  exact (prompt_injective_in_material sample_material sample_material
           sample_options _ eq_refl eq_refl).
Defined.

(** X8. For the guide types "Summary Only" and "Definitions Focus" the
    result of prompt construction depends on the material, the guide type
    and the detail level only: the number of questions, the three
    question types and the model play no part. *)
Theorem prompt_ignores_question_settings (study_material : str) (o o' : Options) :
  has_question_section (family_of (guide_type o)) = false ->
  guide_type o' = guide_type o ->
  detail_level o' = detail_level o ->
  build_prompt study_material o' = build_prompt study_material o.
Proof.
  unfold build_prompt, family_of, detail_phrase. intros Hf -> ->.
  destruct (str_eqb _ _); [done|].
  destruct (str_eqb _ _); [done|].
  by destruct (str_eqb _ _).
Qed.

Lemma prompt_ignores_question_settings_witness :
  has_question_section (family_of (guide_type summary_options)) = false
  /\ guide_type (with_num_questions 3 summary_options)
     = guide_type summary_options
  /\ detail_level (with_num_questions 3 summary_options)
     = detail_level summary_options
  /\ build_prompt sample_material (with_num_questions 3 summary_options)
     = build_prompt sample_material summary_options.
Proof.
  split; [reflexivity|]. split; [reflexivity|]. split; [reflexivity|].
  exact (prompt_ignores_question_settings sample_material summary_options
           (with_num_questions 3 summary_options) eq_refl eq_refl eq_refl).
Defined.

(** ** The number of questions *)

Lemma Ok_inj {A} (a b : A) : Ok a = Ok b -> a = b.
Proof. by intros [=]. Qed.

Lemma int_of_str_digits (s : str) :
  forallb is_digit s = true -> int_of_str s = Z.of_N (N_of_digits s).
Proof.
  destruct s as [|c t]; [done|]. cbn [forallb int_of_str].
  intros [Hc _]%andb_true_iff.
  destruct (N.eqb_spec c 45) as [->|]; [discriminate Hc | done].
Qed.

Lemma int_of_str_of_int (z : Z) : int_of_str (str_of_int z) = z.
Proof.
  destruct z as [|p|p]; unfold str_of_int.
  - reflexivity.
  - rewrite int_of_str_digits by apply str_of_N_digits.
    by rewrite str_of_N_value.
  - cbn [int_of_str]. rewrite N.eqb_refl. by rewrite str_of_N_value.
Qed.


(** X9. The decimal text of an integer reads back as that integer. *)
Theorem str_of_int_round_trip (z : Z) : int_of_str (str_of_int z) = z.
Proof. apply int_of_str_of_int. Qed.

Lemma str_of_int_inj (z1 z2 : Z) : str_of_int z1 = str_of_int z2 -> z1 = z2.
Proof.
  intros H. rewrite <- (int_of_str_of_int z1), <- (int_of_str_of_int z2).
  by rewrite H.
Qed.

(** X10. In the two templates with a question section the prompt tells
    the number of questions: with everything else equal, two numbers that
    give the same prompt are equal. *)
Theorem prompt_injective_in_count (study_material : str) (o : Options)
    (n1 n2 : Z) (prompt : str) :
  has_question_section (family_of (guide_type o)) = true ->
  build_prompt study_material (with_num_questions n1 o) = Ok prompt ->
  build_prompt study_material (with_num_questions n2 o) = Ok prompt ->
  n1 = n2.
Proof.
  intros Hf H1 H2. revert H1 H2.
  unfold build_prompt, mbind, result_bind, detail_phrase.
  cbn [guide_type detail_level with_num_questions].
  change (family_of (guide_type o)) with
    (if str_eqb (guide_type o) (lit "Comprehensive (All sections)") then Comprehensive
     else if str_eqb (guide_type o) (lit "Summary Only") then SummaryOnly
     else if str_eqb (guide_type o) (lit "Definitions Focus") then DefinitionsFocus
     else QuestionsFocus) in Hf.
  destruct (str_eqb _ _); [|destruct (str_eqb _ _); [done|destruct (str_eqb _ _); [done|]]].
  - destruct (detail_mapping !! detail_level o) as [d|]; [|done].
    intros [= <-]. unfold comprehensive_prompt. intros H%Ok_inj.
    match type of H with unlines ?l1 = unlines ?l2 =>
      rewrite <- (take_drop 15 l1) in H; rewrite <- (take_drop 15 l2) in H end.
    cbn [take drop] in H. rewrite !unlines_around in H by done.
    apply app_inv_head in H.
    apply app_inv_tail in H. unfold comprehensive_questions_header in H.
    cbn [num_questions with_num_questions] in H.
    apply app_inv_head in H.
    change (question_type_str (with_num_questions n2 o))
      with (question_type_str (with_num_questions n1 o)) in H.
    apply app_inv_tail in H. by apply str_of_int_inj.
  - intros [= <-]. unfold questions_prompt. intros H%Ok_inj.
    match type of H with unlines (?h1 :: ?r) = unlines (?h2 :: _) =>
      change (h1 ++ 10 :: unlines r = h2 ++ 10 :: unlines r) in H end.
    apply app_inv_tail in H. unfold questions_opening in H.
    cbn [num_questions with_num_questions] in H.
    apply app_inv_head, app_inv_tail in H.
    by apply str_of_int_inj.
Qed.

Lemma prompt_injective_in_count_witness :
  has_question_section (family_of (guide_type sample_options)) = true
  /\ build_prompt sample_material (with_num_questions 5 sample_options)
     = Ok (questions_prompt sample_material sample_options)
  /\ (5 = 5)%Z.
Proof.
  split; [reflexivity|]. split; [reflexivity|].
  exact (prompt_injective_in_count sample_material sample_options 5 5 _
           eq_refl eq_refl eq_refl).
Defined.

(** ** The lines of a prompt *)

Section LineCount.

Lemma lines_around (l1 l2 : list str) (m : str) :
  l1 <> [] -> l2 <> [] ->
  lines (unlines (l1 ++ m :: l2))
  = lines (unlines l1) ++ lines m ++ lines (unlines l2).
Proof.
  intros H1 H2. change (m :: l2) with ([m] ++ l2).
  by rewrite !lines_unlines_app.
Qed.

Lemma comprehensive_header_no_newline o : 10 ∉ comprehensive_questions_header o.
Proof.
  pose proof (block_lines_no_newline Comprehensive o) as H.
  by apply Forall_cons in H as [H _].
Qed.

Lemma questions_header_no_newline o : 10 ∉ questions_header o.
Proof.
  pose proof (block_lines_no_newline QuestionsFocus o) as H.
  by apply Forall_cons in H as [H _].
Qed.

Lemma questions_opening_no_newline o : 10 ∉ questions_opening o.
Proof.
  unfold questions_opening. repeat apply not_elem_of_app_10;
    try apply int_char_not_newline, str_of_int_chars; by apply not_elem_of_10.
Qed.

Lemma slot_no_newline (b : bool) (text : str) : 10 ∉ text -> 10 ∉ slot b text.
Proof. destruct b; [done | intros _ ?%elem_of_nil; done]. Qed.

Lemma template_line_count f d m o :
  f = QuestionsFocus \/ d ∈ detail_phrases ->
  length (lines (template f d m o)) = (frame_lines f + length (lines m))%nat.
Proof.
  intros Hd.
  assert (forall l1 l2 : list str,
            l1 <> [] -> l2 <> [] ->
            Forall (fun l => 10 ∉ l) l1 -> Forall (fun l => 10 ∉ l) l2 ->
            length (lines (unlines (l1 ++ m :: l2)))
            = (length l1 + length l2 + length (lines m))%nat) as Hlen.
  { intros l1 l2 H1 H2 F1 F2. rewrite lines_around by done.
    rewrite !lines_unlines_id by done. rewrite !length_app. lia. }
  destruct f; cbn [template frame_lines].
  - destruct Hd as [|Hd]; [done|]. unfold detail_phrases in Hd.
    unfold comprehensive_prompt.
    match goal with |- context [unlines (?a :: ?b :: ?c :: m :: ?l)] =>
      change (a :: b :: c :: m :: l) with ([a; b; c] ++ m :: l) end.
    rewrite Hlen; [done | done | done | |].
    + repeat (apply elem_of_cons in Hd as [->|Hd];
        [by repeat constructor; apply not_elem_of_10|]).
      by apply elem_of_nil in Hd.
    + repeat (apply elem_of_cons in Hd as [->|Hd];
        [repeat constructor;
         first [ apply comprehensive_header_no_newline
               | apply slot_no_newline; by apply not_elem_of_10
               | by apply not_elem_of_10 ] |]).
      by apply elem_of_nil in Hd.
  - destruct Hd as [|Hd]; [done|]. unfold detail_phrases in Hd.
    unfold summary_prompt.
    match goal with |- context [unlines (?a :: ?b :: ?c :: m :: ?l)] =>
      change (a :: b :: c :: m :: l) with ([a; b; c] ++ m :: l) end.
    rewrite Hlen; [done | done | done | |];
      repeat (apply elem_of_cons in Hd as [->|Hd];
        [by repeat constructor; apply not_elem_of_10|]);
      by apply elem_of_nil in Hd.
  - destruct Hd as [|Hd]; [done|]. unfold detail_phrases in Hd.
    unfold definitions_prompt.
    match goal with |- context [unlines (?a :: ?b :: ?c :: m :: ?l)] =>
      change (a :: b :: c :: m :: l) with ([a; b; c] ++ m :: l) end.
    rewrite Hlen; [done | done | done | |];
      repeat (apply elem_of_cons in Hd as [->|Hd];
        [by repeat constructor; apply not_elem_of_10|]);
      by apply elem_of_nil in Hd.
  - unfold questions_prompt.
    match goal with |- context [unlines (?a :: ?b :: ?c :: m :: ?l)] =>
      change (a :: b :: c :: m :: l) with ([a; b; c] ++ m :: l) end.
    rewrite Hlen; [done | done | done | |].
    + repeat constructor;
        first [ apply questions_opening_no_newline | by apply not_elem_of_10 ].
    + repeat constructor;
        first [ apply questions_header_no_newline
              | apply slot_no_newline; by apply not_elem_of_10
              | by apply not_elem_of_10 ].
Qed.

End LineCount.

(** X11. The number of lines of a prompt is that of the study material
    plus a number fixed by the family: 24 for the comprehensive template,
    11 for each of the three others. It does not depend on the detail
    level, on the number of questions or on which question types are
    enabled. *)
Theorem prompt_line_count (study_material : str) (o : Options) (prompt : str) :
  build_prompt study_material o = Ok prompt ->
  length (lines prompt)
  = (frame_lines (family_of (guide_type o)) + length (lines study_material))%nat.
Proof.
  intros (d & -> & Hd)%build_prompt_inv. by apply template_line_count.
Qed.

Lemma prompt_line_count_witness :
  build_prompt sample_material comprehensive_options
  = Ok (comprehensive_prompt (lit "extremely detailed with in-depth explanations")
          sample_material comprehensive_options)
  /\ length (lines (comprehensive_prompt
                      (lit "extremely detailed with in-depth explanations")
                      sample_material comprehensive_options))
     = (frame_lines (family_of (guide_type comprehensive_options))
        + length (lines sample_material))%nat.
Proof.
  split; [reflexivity|].
  exact (prompt_line_count sample_material comprehensive_options _ eq_refl).
Defined.

(** ** The session across runs of the script *)

Section Session.

Lemma generate_keeps_key remote s m o :
  api_key (session_after (generate remote s m o)) = api_key s.
Proof.
  unfold generate.
  destruct (negb (truthy_opt (api_key s))); [done|].
  destruct (negb (truthy m) || _); [done|].
  destruct (build_prompt m o); [|done].
  cbn zeta. destruct (remote _); [done|]. by destruct (first_choice _).
Qed.

Lemma generate_success_inv remote s m o :
  outcome (generate remote s m o) = Generated ->
  exists req content rest,
    requests (generate remote s m o) = [req]
    /\ remote req = Completion (content :: rest)
    /\ session_after (generate remote s m o)
       = {| study_guide := content; api_key := api_key s |}.
Proof.
  unfold generate.
  destruct (negb (truthy_opt (api_key s))); [done|].
  destruct (negb (truthy m) || _); [done|].
  destruct (build_prompt m o); [|done].
  cbn zeta. set (req := Build_Request _ _ _ _ _ _).
  destruct (remote req) as [msg|[|content rest]] eqn:E; cbn; try done.
  intros _. by exists req, content, rest.
Qed.

Lemma generate_failure_keeps remote s m o :
  outcome (generate remote s m o) <> Generated ->
  session_after (generate remote s m o) = s.
Proof.
  unfold generate.
  destruct (negb (truthy_opt (api_key s))); [done|].
  destruct (negb (truthy m) || _); [done|].
  destruct (build_prompt m o); [|done].
  cbn zeta. destruct (remote _) as [msg|[|text rest]]; cbn; done.
Qed.

Lemma sidebar_study_guide s w : study_guide (sidebar s w) = study_guide s.
Proof. unfold sidebar. by destruct (truthy _). Qed.

Lemma sidebar_keeps_truthy s w :
  truthy_opt (api_key s) = true -> truthy_opt (api_key (sidebar s w)) = true.
Proof. unfold sidebar. by destruct (truthy (api_key_input w)) eqn:E. Qed.

Lemma script_session remote now s w :
  page_session (script remote now s w)
  = if generate_button w
    then session_after (generate remote (sidebar s w) (study_material w) (options w))
    else sidebar s w.
Proof. unfold script. by destruct (generate_button w). Qed.

End Session.

(** X12. In the run where a generation succeeds, the stored guide is
    what the first choice of the completion carries as content, and the
    download buttons of that same run offer exactly that text, twice;
    when the content is missing or empty, the success is reported but no
    download is offered. *)
Theorem success_is_offered (remote : Request -> Reply) (now : nat -> DateTime)
    (s : SessionState) (w : Widgets) :
  page_outcome (script remote now s w) = Some Generated ->
  exists req content rest,
    page_requests (script remote now s w) = [req]
    /\ remote req = Completion (content :: rest)
    /\ study_guide (page_session (script remote now s w)) = content
    /\ (forall text,
          content = Some text -> truthy text = true ->
          exists md txt,
            page_downloads (script remote now s w) = Some (md, txt)
            /\ data md = text /\ data txt = text)
    /\ (truthy_opt content = false ->
        page_downloads (script remote now s w) = None).
Proof.
  unfold script. destruct (generate_button w); [|done].
  cbn [page_outcome page_requests page_session page_downloads].
  intros [= H].
  destruct (generate_success_inv _ _ _ _ H) as (req & content & rest & -> & Hr & ->).
  exists req, content, rest. repeat split; try done; unfold download_buttons;
    cbn [study_guide].
  - intros text -> ->. by eexists _, _.
  - destruct content as [text|]; [|done]. cbn [truthy_opt]. by intros ->.
Qed.

Lemma success_is_offered_witness :
  page_outcome (script answering_remote new_year_clock initial_session clicking)
  = Some Generated
  /\ exists req content rest,
    page_requests (script answering_remote new_year_clock initial_session clicking)
    = [req]
    /\ answering_remote req = Completion (content :: rest)
    /\ study_guide
         (page_session (script answering_remote new_year_clock initial_session clicking))
       = content
    /\ (forall text,
          content = Some text -> truthy text = true ->
          exists md txt,
            page_downloads (script answering_remote new_year_clock initial_session clicking)
            = Some (md, txt)
            /\ data md = text /\ data txt = text)
    /\ (truthy_opt content = false ->
        page_downloads (script answering_remote new_year_clock initial_session clicking)
        = None).
Proof.
  split; [reflexivity|].
  exact (success_is_offered answering_remote new_year_clock initial_session
           clicking eq_refl).
Defined.

(** A success without content: reported, stored, nothing to download. *)
Example success_without_content :
  page_outcome (script silent_remote new_year_clock revisiting_session clicking)
  = Some Generated
  /\ study_guide (page_session
       (script silent_remote new_year_clock revisiting_session clicking)) = None
  /\ page_downloads (script silent_remote new_year_clock revisiting_session clicking)
     = None.
Proof. repeat split. Qed.

(** X13. A key typed into the sidebar is the one the same run works with:
    it is stored in the session, the attempt of that run is not rejected
    for a missing credential, and every request of the run carries the
    typed key, whatever key the session held before. *)
Theorem typed_key_is_used (remote : Request -> Reply) (now : nat -> DateTime)
    (s : SessionState) (w : Widgets) :
  truthy (api_key_input w) = true ->
  api_key (page_session (script remote now s w)) = Some (api_key_input w)
  /\ page_outcome (script remote now s w) <> Some MissingCredential
  /\ forall r, r ∈ page_requests (script remote now s w) ->
               req_api_key r = api_key_input w.
Proof.
  intros Hk.
  assert (api_key (sidebar s w) = Some (api_key_input w)) as Hs
    by (unfold sidebar; by rewrite Hk).
  unfold script. destruct (generate_button w);
    cbn [page_outcome page_requests page_session].
  - rewrite generate_keeps_key. split; [done|]. split.
    + intros [= H]. revert H. unfold generate. rewrite Hs. cbn [truthy_opt].
      rewrite Hk. cbn [negb].
      destruct (negb (truthy (study_material w)) || _); [done|].
      destruct (build_prompt _ _); [|done].
      cbn zeta. destruct (remote _); [done|]. by destruct (first_choice _).
    + intros r Hr. apply request_carries in Hr as (Hr & _).
      rewrite Hs in Hr. by injection Hr.
  - split; [done|]. split; [done|]. by intros r ?%elem_of_nil.
Qed.

Lemma typed_key_is_used_witness :
  truthy (api_key_input clicking) = true
  /\ api_key (page_session (script failing_remote new_year_clock revisiting_session clicking))
     = Some (api_key_input clicking)
  /\ page_outcome (script failing_remote new_year_clock revisiting_session clicking)
     <> Some MissingCredential
  /\ forall r,
       r ∈ page_requests (script failing_remote new_year_clock revisiting_session clicking) ->
       req_api_key r = api_key_input clicking.
Proof.
  split; [reflexivity|].
  exact (typed_key_is_used failing_remote new_year_clock revisiting_session
           clicking eq_refl).
Defined.

(** X14. A credential, once in the session, stays through every later
    run: no sequence of runs, whatever the widgets hold and whatever the
    remote service answers, leaves the session without one. *)
Theorem credential_stays (rs : list Rerun) (s : SessionState) :
  truthy_opt (api_key s) = true ->
  truthy_opt (api_key (session_after_runs rs s)) = true.
Proof.
  revert s. induction rs as [|r rs IH]; intros s Hk; [done|].
  cbn [session_after_runs fold_left]. apply IH.
  unfold rerun. rewrite script_session.
  destruct (generate_button _); [rewrite generate_keeps_key|];
    by apply sidebar_keeps_truthy.
Qed.

Lemma credential_stays_witness :
  truthy_opt (api_key keyed_session) = true
  /\ truthy_opt
       (api_key (session_after_runs
                   [ {| rerun_widgets := idle; rerun_remote := failing_remote;
                        rerun_now := new_year_clock |};
                     {| rerun_widgets := clicking; rerun_remote := answering_remote;
                        rerun_now := new_year_clock |} ]
                   keyed_session))
     = true.
Proof.
  split; [reflexivity|]. by apply credential_stays.
Defined.

(** X15. Runs in which the Generate button is not pressed issue no
    request and report no outcome, and a sequence of such runs leaves the
    stored guide as it was. *)
Theorem idle_runs_keep_guide (rs : list Rerun) (s : SessionState) :
  Forall (fun r => generate_button (rerun_widgets r) = false) rs ->
  study_guide (session_after_runs rs s) = study_guide s
  /\ Forall (fun r => forall s', page_requests (rerun s' r) = []
                                 /\ page_outcome (rerun s' r) = None) rs.
Proof.
  intros H. split.
  - revert s. induction H as [|r rs Hr H IH]; intros s; [done|].
    cbn [session_after_runs fold_left]. unfold session_after_runs in IH.
    rewrite IH. unfold rerun. rewrite script_session, Hr.
    apply sidebar_study_guide.
  - eapply Forall_impl; [exact H|]. intros r Hr s'. unfold rerun, script.
    by rewrite Hr.
Qed.

Lemma idle_runs_keep_guide_witness :
  Forall (fun r => generate_button (rerun_widgets r) = false)
    [ {| rerun_widgets := idle; rerun_remote := answering_remote;
         rerun_now := new_year_clock |} ]
  /\ study_guide
       (session_after_runs
          [ {| rerun_widgets := idle; rerun_remote := answering_remote;
               rerun_now := new_year_clock |} ]
          revisiting_session)
     = study_guide revisiting_session
  /\ Forall (fun r => forall s', page_requests (rerun s' r) = []
                                 /\ page_outcome (rerun s' r) = None)
       [ {| rerun_widgets := idle; rerun_remote := answering_remote;
            rerun_now := new_year_clock |} ].
Proof.
  assert (Forall (fun r => generate_button (rerun_widgets r) = false)
            [ {| rerun_widgets := idle; rerun_remote := answering_remote;
                 rerun_now := new_year_clock |} ]) as H
    by (repeat constructor).
  split; [exact H|]. exact (idle_runs_keep_guide _ revisiting_session H).
Defined.

Lemma script_keeps_guide remote now s w :
  page_outcome (script remote now s w) <> Some Generated ->
  study_guide (page_session (script remote now s w)) = study_guide s.
Proof.
  unfold script. destruct (generate_button w);
    cbn [page_outcome page_session]; intros H.
  - rewrite generate_failure_keeps by congruence. apply sidebar_study_guide.
  - apply sidebar_study_guide.
Qed.

(** X16. The stored guide changes through a success only: over a
    sequence of runs none of which ends in a success (runs without the
    button, rejected attempts, exceptions, failures of the remote call),
    the stored guide stays what it was. *)
Theorem guide_changes_only_on_success (rs : list Rerun) (s : SessionState) :
  Forall (fun out => out <> Some Generated) (outcomes_of_runs rs s) ->
  study_guide (session_after_runs rs s) = study_guide s.
Proof.
  revert s. induction rs as [|r rs IH]; intros s H; [done|].
  cbn [outcomes_of_runs] in H. apply Forall_cons in H as [Hr H].
  cbn [session_after_runs fold_left]. unfold session_after_runs in IH.
  rewrite IH by done. unfold rerun in *. by apply script_keeps_guide.
Qed.

Lemma guide_changes_only_on_success_witness :
  Forall (fun out => out <> Some Generated)
    (outcomes_of_runs
       [ {| rerun_widgets := clicking; rerun_remote := failing_remote;
            rerun_now := new_year_clock |};
         {| rerun_widgets := idle; rerun_remote := answering_remote;
            rerun_now := new_year_clock |} ]
       revisiting_session)
  /\ study_guide
       (session_after_runs
          [ {| rerun_widgets := clicking; rerun_remote := failing_remote;
               rerun_now := new_year_clock |};
            {| rerun_widgets := idle; rerun_remote := answering_remote;
               rerun_now := new_year_clock |} ]
          revisiting_session)
     = study_guide revisiting_session.
Proof.
  assert (Forall (fun out => out <> Some Generated)
            (outcomes_of_runs
               [ {| rerun_widgets := clicking; rerun_remote := failing_remote;
                    rerun_now := new_year_clock |};
                 {| rerun_widgets := idle; rerun_remote := answering_remote;
                    rerun_now := new_year_clock |} ]
               revisiting_session)) as H
    by (vm_compute; repeat constructor; discriminate).
  split; [exact H | exact (guide_changes_only_on_success _ _ H)].
Defined.

(** ** File names *)

Lemma field_inj width n1 n2 (s : str) :
  field width n1 s -> field width n2 s -> n1 = n2.
Proof. intros [_ <-] [_ <-]. done. Qed.

(** X17. On clock readings with a four-digit year the stamp has 15
    characters and tells the reading: two readings with the same stamp are
    the same reading, so that readings in different seconds give different
    file names. *)
Theorem strftime_injective (t1 t2 : DateTime) :
  valid_datetime t1 = true ->
  valid_datetime t2 = true ->
  length (strftime t1) = 15%nat
  /\ (strftime t1 = strftime t2 -> t1 = t2).
Proof.
  intros (Y1 & M1 & D1 & h1 & m1 & s1 & E1 & FY1 & FM1 & FD1 & Fh1 & Fm1 & Fs1)%strftime_stamp
         (Y2 & M2 & D2 & h2 & m2 & s2 & E2 & FY2 & FM2 & FD2 & Fh2 & Fm2 & Fs2)%strftime_stamp.
  pose proof FY1 as [[LY1 _] _]. pose proof FM1 as [[LM1 _] _].
  pose proof FD1 as [[LD1 _] _]. pose proof Fh1 as [[Lh1 _] _].
  pose proof Fm1 as [[Lm1 _] _]. pose proof Fs1 as [[Ls1 _] _].
  pose proof FY2 as [[LY2 _] _]. pose proof FM2 as [[LM2 _] _].
  pose proof FD2 as [[LD2 _] _]. pose proof Fh2 as [[Lh2 _] _].
  pose proof Fm2 as [[Lm2 _] _]. pose proof Fs2 as [[Ls2 _] _].
  split.
  - rewrite E1, !length_app. change (length (lit "_")) with 1%nat. lia.
  - rewrite E1, E2. intros H.
    apply app_inj_1 in H as [-> H]; [|congruence].
    apply app_inj_1 in H as [-> H]; [|congruence].
    apply app_inj_1 in H as [-> H]; [|congruence].
    apply app_inj_1 in H as [_ H]; [|done].
    apply app_inj_1 in H as [-> H]; [|congruence].
    apply app_inj_1 in H as [-> ->]; [|congruence].
    destruct t1, t2; cbn in *. f_equal; by eapply field_inj.
Qed.

Lemma strftime_injective_witness :
  valid_datetime new_year_eve = true
  /\ valid_datetime (new_year_clock 0) = true
  /\ length (strftime new_year_eve) = 15%nat
  /\ (strftime new_year_eve = strftime (new_year_clock 0) ->
      new_year_eve = new_year_clock 0).
Proof.
  split; [reflexivity|]. split; [reflexivity|].
  exact (strftime_injective new_year_eve (new_year_clock 0) eq_refl eq_refl).
Defined.

(** ** The preview of an upload *)

(** X18. The preview of an uploaded text is the text itself when it has
    at most 500 characters; a longer text is cut to its first 500
    characters followed by three dots, 503 characters in all. *)
Theorem preview_spec (study_material : str) :
  (length (preview study_material) <= 503)%nat
  /\ take 500 (preview study_material) = take 500 study_material
  /\ ((length study_material <= 500)%nat -> preview study_material = study_material)
  /\ ((500 < length study_material)%nat ->
      length (preview study_material) = 503%nat
      /\ drop 500 (preview study_material) = lit "...").
Proof.
  unfold preview.
  destruct (Nat.ltb_spec 500 (length study_material)) as [Hlong|Hshort].
  - assert (length (take 500 study_material) = 500%nat) as Hlen
      by (rewrite length_take; lia).
    repeat split.
    + rewrite length_app, Hlen. cbn. lia.
    + rewrite take_app_le by lia. apply take_idemp.
    + lia.
    + rewrite length_app, Hlen. by cbn.
    + by rewrite drop_app_length'.
  - repeat split; try done; lia.
Qed.

(** ** The word-count metric *)

Section Thousands.

Lemma group3_without_commas (k : nat) (ds : str) :
  (length ds <= k)%nat -> forallb is_digit ds = true ->
  without_commas (group3 ds) = ds.
Proof.
  unfold without_commas. revert ds. induction k as [|k IH]; intros ds Hlen Hd.
  - by destruct ds; [|cbn in Hlen; lia].
  - assert (forall c, is_digit c = true -> negb (c =? 44) = true) as Hc.
    { intros c Hc. destruct (N.eqb_spec c 44) as [->|]; [discriminate Hc | done]. }
    destruct ds as [|a [|b [|c [|e more]]]];
      cbn [forallb] in Hd; rewrite ?andb_true_iff in Hd;
      try (cbn [group3 List.filter]; destruct_and?; by rewrite ?Hc).
    destruct Hd as (Ha & Hb & Hcc & He).
    change (group3 (a :: b :: c :: e :: more))
      with (a :: b :: c :: 44 :: group3 (e :: more)).
    cbn [List.filter]. rewrite !Hc by done.
    change (negb (44 =? 44)) with false. cbn iota.
    f_equal. f_equal. f_equal.
    apply IH; [cbn [length] in *; lia | by apply andb_true_iff].
Qed.

Lemma group3_short (ds : str) : (length ds <= 3)%nat -> group3 ds = ds.
Proof.
  destruct ds as [|a [|b [|c [|e more]]]]; try done. cbn [length]. lia.
Qed.

Lemma thousands_without_commas n : without_commas (thousands n) = str_of_N n.
Proof.
  unfold thousands, without_commas. rewrite List.filter_rev.
  fold (without_commas (group3 (rev (str_of_N n)))).
  rewrite (group3_without_commas (length (rev (str_of_N n)))); [apply rev_involutive|done|].
  rewrite forallb_forall. intros c Hc%in_rev.
  pose proof (str_of_N_digits n) as H. rewrite forallb_forall in H. by apply H.
Qed.

End Thousands.

(** X19. The word-count metric is the decimal text of the word count with
    commas put in: without the commas it reads back as the word count, and
    below 1000 words it has no comma at all. *)
Theorem metric_round_trip (study_material : str) :
  N_of_digits (without_commas (metric study_material))
  = N.of_nat (word_count study_material)
  /\ ((word_count study_material < 1000)%nat ->
      metric study_material = str_of_N (N.of_nat (word_count study_material))).
Proof.
  unfold metric. split.
  - by rewrite thousands_without_commas, str_of_N_value.
  - intros H. unfold thousands. rewrite group3_short; [apply rev_involutive|].
    rewrite length_rev.
    pose proof (digits_of_length
                  (S (N.to_nat (N.size (N.of_nat (word_count study_material)))))
                  3 (N.of_nat (word_count study_material)) []) as Hlen.
    apply Hlen; [lia|]. change (10 ^ N.of_nat 3) with 1000. lia.
Qed.

Example metric_of_1234567 : thousands 1234567 = lit "1,234,567".
Proof. reflexivity. Qed.

(** ** Words and trimming *)

Section Words.

Lemma split_aux_concat cur s :
  concat (split_aux cur s) = rev cur ++ without_whitespace s.
Proof.
  unfold without_whitespace, nonspace.
  revert cur; induction s as [|c s IH]; intros cur.
  - destruct cur; [done|]. cbn [split_aux concat List.filter]. done.
  - cbn [split_aux List.filter]. destruct (isspace c) eqn:E; cbn [negb].
    + destruct cur as [|x cur]; [apply IH|].
      cbn [concat]. by rewrite IH.
    + rewrite IH. cbn [rev]. by rewrite <- app_assoc.
Qed.

Lemma lstrip_without_whitespace s :
  without_whitespace (lstrip s) = without_whitespace s.
Proof.
  unfold without_whitespace, nonspace.
  induction s as [|c s IH]; [done|]. cbn [lstrip].
  destruct (isspace c) eqn:E; [|done].
  rewrite IH. cbn [List.filter]. by rewrite E.
Qed.

Lemma strip_without_whitespace s :
  without_whitespace (strip s) = without_whitespace s.
Proof.
  unfold strip, rstrip. unfold without_whitespace at 1.
  rewrite List.filter_rev. fold (without_whitespace (lstrip (rev (lstrip s)))).
  rewrite lstrip_without_whitespace. unfold without_whitespace at 1.
  rewrite List.filter_rev, rev_involutive.
  apply lstrip_without_whitespace.
Qed.

Lemma length_concat_tokens (ws : list str) :
  Forall token ws -> (length ws <= length (concat ws))%nat.
Proof.
  induction 1 as [|w ws [Hw _] _ IH]; [done|].
  cbn [concat length]. rewrite length_app. destruct w; [done|]. cbn [length]. lia.
Qed.

Lemma without_whitespace_length s :
  (length (without_whitespace s) <= length s)%nat.
Proof.
  unfold without_whitespace. induction s as [|c s IH]; [done|].
  cbn [List.filter]. destruct (nonspace c); cbn [length]; lia.
Qed.

Lemma word_count_le_strip s : (word_count s <= length (strip s))%nat.
Proof.
  unfold word_count.
  etrans; [apply length_concat_tokens, split_tokens|].
  unfold split. rewrite split_aux_concat. cbn [rev app].
  rewrite <- strip_without_whitespace. apply without_whitespace_length.
Qed.

Lemma lstrip_all_space s : forallb isspace s = true -> lstrip s = [].
Proof.
  induction s as [|c s IH]; [done|]. cbn [forallb lstrip].
  intros [-> H]%andb_true_iff. by apply IH.
Qed.

Lemma token_starts_all_space b s :
  forallb isspace s = true -> token_starts b s = 0%nat.
Proof.
  revert b; induction s as [|c s IH]; intros b; [done|]. cbn [forallb token_starts].
  intros [-> H]%andb_true_iff. rewrite IH by done. by rewrite andb_false_r.
Qed.

Lemma lstrip_decomp s :
  exists l, s = l ++ lstrip s /\ forallb isspace l = true.
Proof.
  induction s as [|c s (l & Hl & Hs)]; [by exists []|].
  cbn [lstrip]. destruct (isspace c) eqn:E.
  - exists (c :: l). cbn [forallb]. rewrite E, Hs. split; [|done].
    cbn [app]. by rewrite <- Hl.
  - by exists [].
Qed.

Lemma lstrip_head s c t : lstrip s = c :: t -> isspace c = false.
Proof.
  induction s as [|x s IH]; [done|]. cbn [lstrip].
  destruct (isspace x) eqn:E; [done|]. by intros [= <- _].
Qed.

Lemma lstrip_fixed s :
  (forall c t, s = c :: t -> isspace c = false) -> lstrip s = s.
Proof.
  destruct s as [|c t]; [done|]. intros H. cbn [lstrip].
  by rewrite (H c t eq_refl).
Qed.

Lemma lstrip_idemp s : lstrip (lstrip s) = lstrip s.
Proof. apply lstrip_fixed. intros c t. apply lstrip_head. Qed.

Lemma strip_ends s :
  (forall c t, strip s = c :: t -> isspace c = false)
  /\ (forall c t, strip s = t ++ [c] -> isspace c = false)
  /\ exists l r,
       s = l ++ strip s ++ r
       /\ forallb isspace l = true /\ forallb isspace r = true.
Proof.
  unfold strip, rstrip.
  destruct (lstrip_decomp s) as (l & Hl & Hls).
  destruct (lstrip_decomp (rev (lstrip s))) as (r & Hr & Hrs).
  set (x := lstrip s) in *. set (y := lstrip (rev x)) in *.
  assert (x = rev y ++ rev r) as Hx.
  { rewrite <- (rev_involutive x), Hr. apply rev_app_distr. }
  split; [|split].
  - intros c t Hy. apply (lstrip_head s c (t ++ rev r)). fold x.
    by rewrite Hx, Hy.
  - intros c t Hy. apply (lstrip_head (rev x) c (rev t)). fold y.
    rewrite <- (rev_involutive y), Hy, rev_app_distr. done.
  - exists l, (rev r). split; [by rewrite <- Hx|]. split; [done|].
    rewrite forallb_forall in *. intros c Hc%in_rev. by apply Hrs.
Qed.

Lemma strip_idemp s : strip (strip s) = strip s.
Proof.
  destruct (strip_ends s) as (Hhead & Hlast & _).
  unfold strip at 1. rewrite (lstrip_fixed (strip s)) by done.
  unfold rstrip. rewrite lstrip_fixed; [apply rev_involutive|].
  intros c t Hc. apply (Hlast c (rev t)).
  rewrite <- (rev_involutive (strip s)), Hc. done.
Qed.

End Words.

(** X20. The words that [split] returns, put together, are the material
    without its whitespace characters: no other character is lost, added
    or moved. *)
Theorem split_keeps_characters (study_material : str) :
  concat (split study_material) = without_whitespace study_material.
Proof. unfold split. by rewrite split_aux_concat. Qed.

(** X21. The trimmed material has at least as many characters as the
    material has words; so, with a credential, a material of 50 words or
    more is never rejected as too short, and every material that the
    advisory classes as Short or Sufficient passes the length gate. *)
Theorem words_pass_the_gate (study_material : str) :
  (word_count study_material <= length (strip study_material))%nat
  /\ forall remote s o,
       truthy_opt (api_key s) = true ->
       (50 <= word_count study_material)%nat ->
       outcome (generate remote s study_material o) <> InsufficientInput.
Proof.
  pose proof (word_count_le_strip study_material) as Hle. split; [done|].
  intros remote s o Hk Hwc.
  rewrite generate_gate by (done || apply Nat.ltb_ge; lia).
  destruct (build_prompt _ _); [|done].
  cbn zeta. destruct (remote _); [done|]. by destruct (first_choice _).
Qed.

(** X22. A material that is not empty and holds whitespace only gets an
    advisory, with the word count 0 and the class TooShort, and an attempt
    on it with a credential is rejected as insufficient input, without a
    request. *)
Theorem whitespace_only_material (remote : Request -> Reply) (s : SessionState)
    (study_material : str) (o : Options) :
  study_material <> [] ->
  forallb isspace study_material = true ->
  truthy_opt (api_key s) = true ->
  advisory study_material = Some (0%nat, TooShort)
  /\ strip study_material = []
  /\ generate remote s study_material o
     = {| session_after := s; outcome := InsufficientInput; requests := [] |}.
Proof.
  intros Hne Hsp Hk.
  assert (strip study_material = []) as Hstrip.
  { unfold strip. by rewrite lstrip_all_space. }
  split; [|split; [done|]].
  - unfold advisory. destruct study_material; [done|]. cbn [truthy].
    rewrite word_count_tokens. unfold whitespace_delimited_tokens.
    by rewrite token_starts_all_space.
  - apply generate_rejects_short; [done|]. rewrite Hstrip. cbn. lia.
Qed.

Lemma whitespace_only_material_witness :
  lit "   " <> []
  /\ forallb isspace (lit "   ") = true
  /\ truthy_opt (api_key keyed_session) = true
  /\ advisory (lit "   ") = Some (0%nat, TooShort)
  /\ strip (lit "   ") = []
  /\ generate answering_remote keyed_session (lit "   ") sample_options
     = {| session_after := keyed_session; outcome := InsufficientInput;
          requests := [] |}.
Proof.
  assert (lit "   " <> []) as H by discriminate.
  split; [exact H|]. split; [reflexivity|]. split; [reflexivity|].
  exact (whitespace_only_material answering_remote keyed_session (lit "   ")
           sample_options H eq_refl eq_refl).
Defined.

(** X23. Trimming takes whitespace off the two ends and nothing else: the
    material is the trimmed text between two runs of whitespace, the
    trimmed text neither starts nor ends with a whitespace character, and
    trimming it again changes nothing. The length gate counts the
    characters from the first to the last one that is not whitespace. *)
Theorem strip_spec (study_material : str) :
  (exists l r,
     study_material = l ++ strip study_material ++ r
     /\ forallb isspace l = true /\ forallb isspace r = true)
  /\ (forall c t, strip study_material = c :: t -> isspace c = false)
  /\ (forall c t, strip study_material = t ++ [c] -> isspace c = false)
  /\ strip (strip study_material) = strip study_material.
Proof.
  destruct (strip_ends study_material) as (Hh & Hl & Hd).
  repeat split; try done. apply strip_idemp.
Qed.
